(** * QKart backend: user and cart services

    A shallow embedding of [src/services/user.service.js] (the user service
    followed by the cart service) and the properties of its operations.

    Modelling conventions.
    - A Mongoose model is a collection of the data store.  [User] documents
      are kept under their [_id], [Cart] documents under the e-mail of their
      owner (the only key the services ever query carts by), and the product
      catalogue, which the services only read, is the list of its documents.
    - An [async] function is a computation over the store that either
      returns or throws; a store access that is awaited (or fired without
      being awaited, as the last [save] of the cart mutations) is one step
      of that computation.  The store itself is reliable: reads and writes
      do what they say.  [checkout] is the one service with two writes, and
      it is also given on a store that may reject either of them.
    - JavaScript numbers (cost, quantity, wallet balance) are the
      integer-valued binary64 numbers: a product, a sum or a difference is
      the exact integer rounded as binary64 rounds it, so that it is exact
      on safe integers and rounded beyond them.  Numbers with a fraction,
      and magnitudes beyond the range of binary64, are outside the model. *)

From stdpp Require Import gmap strings list fin_maps.
From Stdlib Require Import ZArith Floats.

Local Open Scope string_scope.
Local Open Scope Z_scope.

(** ** Documents *)

(** MongoDB object identifiers. *)
Abbreviation ObjectId := N (only parsing).

Module User.
Record t := mk {
  _id : ObjectId;
  name : string;
  email : string;
  password : string;
  address : string;
  walletMoney : Z
}.
End User.

Module Product.
Record t := mk {
  _id : ObjectId;
  name : string;
  cost : Z
}.
End Product.

(** A line item embeds a copy of the product document. *)
Module CartItem.
Record t := mk {
  product : Product.t;
  quantity : Z
}.
End CartItem.

(** The [email] field of a cart document is the key it is stored under. *)
Module Cart.
Record t := mk {
  cartItems : list CartItem.t;
  paymentOption : string
}.
End Cart.

(** The body of a sign-up request. *)
Module UserBody.
Record t := mk {
  name : string;
  email : string;
  password : string
}.
End UserBody.

(** [config/config.js]: the values the services and the schemas read. *)
Module Config.
Record t := mk {
  default_address : string;
  default_payment_option : string;
  default_wallet_money : Z
}.
End Config.

(** ** HTTP status codes and exceptions *)

Module httpStatus.
Definition OK : Z := 200.
Definition BAD_REQUEST : Z := 400.
Definition NOT_FOUND : Z := 404.
Definition INTERNAL_SERVER_ERROR : Z := 500.
End httpStatus.

(** What a service can throw: an [ApiError] built by the service itself, the
    [TypeError] of the runtime when a property of [null] is read, or an
    error of the data store. *)
Inductive Exn :=
| ApiError (statusCode : Z) (message : string)
| TypeError (message : string)
| StoreError (message : string).

Definition is_ApiError (e : Exn) : bool :=
  match e with ApiError _ _ => true | _ => false end.

(** 400-class status codes. *)
Definition client_error (e : Exn) : bool :=
  match e with
  | ApiError s _ => Z.leb 400 s && Z.ltb s 500
  | _ => false
  end.

(** ** The data store and computations over it *)

Record Store := mkStore {
  users : gmap N User.t;
  products : list Product.t;
  carts : gmap string Cart.t
}.

Inductive Result (A : Type) :=
| Ok (a : A)
| Throw (e : Exn).
Arguments Ok {A} a.
Arguments Throw {A} e.

(** A computation runs from a store and ends in a result and a store: what
    was written before an exception stays written. *)
Definition M (A : Type) : Type := Store → Result A * Store.

Global Instance M_ret : MRet M := λ A a st, (Ok a, st).
Global Instance M_bind : MBind M := λ A B f m st,
  match m st with
  | (Ok a, st') => f a st'
  | (Throw e, st') => (Throw e, st')
  end.

Definition throw {A} (e : Exn) : M A := λ st, (Throw e, st).

(** [try { body } catch (err) { throw e }] *)
Definition try_catch_throw {A} (body : M A) (e : Exn) : M A := λ st,
  match body st with
  | (Ok a, st') => (Ok a, st')
  | (Throw _, st') => (Throw e, st')
  end.

Definition result {A} (r : Result A * Store) : Result A := r.1.
Definition final {A} (r : Result A * Store) : Store := r.2.

(** The two writes of [checkout], which the store may reject. *)
Inductive Write :=
| SaveUser
| SaveCart.

(** A store that accepts every write. *)
Definition accepts_all : Write → bool := λ _, false.

(** [await document.save()] on a store that rejects the writes [rejects]
    tells: the rejection is thrown to the caller. *)
Definition save_unless (rejects : Write → bool) (write : Write) (save : M unit)
    : M unit :=
  if rejects write then throw (StoreError "save rejected") else save.

(** ** JavaScript numbers *)

(** [Number.MAX_SAFE_INTEGER], that is 2^53 - 1. *)
Definition MAX_SAFE_INTEGER : Z := 9007199254740991.

(** The binary64 number nearest to the integer [x], ties to the even
    significand: integers of more than 53 bits lose their low bits. *)
Definition binary64_round (x : Z) : Z :=
  let a := Z.abs x in
  let drop := Z.log2 a - 52 in
  if Z.leb drop 0 then x
  else
    let q := Z.shiftr a drop in
    let r := a - Z.shiftl q drop in
    let half := Z.shiftl 1 (drop - 1) in
    let q' := if Z.ltb r half then q
              else if Z.ltb half r then q + 1
              else if Z.even q then q else q + 1 in
    Z.sgn x * Z.shiftl q' drop.

(** [a + b], [a - b] and [a * b] on numbers. *)
Definition js_add (a b : Z) : Z := binary64_round (a + b).
Definition js_sub (a b : Z) : Z := binary64_round (a - b).
Definition js_mul (a b : Z) : Z := binary64_round (a * b).

(** The integer is a number: binary64 holds it as it is. *)
Definition representable (x : Z) : Prop := binary64_round x = x.

(** The integer is a safe integer, [Number.isSafeInteger(x)]. *)
Definition safe_integer (x : Z) : Prop :=
  - MAX_SAFE_INTEGER ≤ x ≤ MAX_SAFE_INTEGER.

(** The binary64 number of a natural number below 2^63, as the kernel's
    floats have it. *)
Definition to_float (x : Z) : PrimFloat.float :=
  PrimFloat.of_uint63 (Uint63.of_Z x).

(** ** JavaScript values of the one condition that mixes types *)

Inductive JsVal :=
| JsNumber (n : Z)
| JsBoolean (b : bool).

Definition ToBoolean (v : JsVal) : bool :=
  match v with
  | JsNumber n => negb (Z.eqb n 0)
  | JsBoolean b => b
  end.

(** [!v] *)
Definition js_not (v : JsVal) : JsVal := JsBoolean (negb (ToBoolean v)).

(** [a === b]: values of different types are never strictly equal. *)
Definition js_strict_equals (a b : JsVal) : bool :=
  match a, b with
  | JsNumber x, JsNumber y => Z.eqb x y
  | JsBoolean x, JsBoolean y => Bool.eqb x y
  | _, _ => false
  end.

(** ** The models *)

Section Services.

Variable config : Config.t.

(** [User.findById(id)], [User.findOne({_id: id}, projection)] *)
Definition User_findById (id : ObjectId) : M (option User.t) := λ st,
  (Ok (users st !! id), st).

(** [User.findOne({email})]: the first user document with that e-mail. *)
Definition User_findOne_email (email : string) : M (option User.t) := λ st,
  (Ok ((λ r, r.2.2) <$>
         list_find (λ kv : N * User.t, User.email kv.2 = email)
                   (map_to_list (users st))), st).

(** Modelled from the spec: [User.isEmailTaken] of the user model, which is
    not part of the sources; it tells whether the e-mail is already
    registered, that is, whether some user document carries it. *)
Definition User_isEmailTaken (email : string) : M bool := λ st,
  (Ok (bool_decide (map_Exists (λ _ u, User.email u = email) (users st))), st).

(** Modelled from the spec: [User.create] of the user model; it persists a
    new user record under an identifier no user has yet, with the address
    and the wallet balance the schema gives by default. *)
Definition User_create (body : UserBody.t) : M User.t := λ st,
  let newUser :=
    User.mk (fresh (dom (users st)))
            (UserBody.name body) (UserBody.email body) (UserBody.password body)
            (Config.default_address config)
            (Config.default_wallet_money config) in
  (Ok newUser,
   mkStore (<[User._id newUser := newUser]> (users st)) (products st) (carts st)).

(** [user.save()] *)
Definition User_save (user : User.t) : M unit := λ st,
  (Ok (), mkStore (<[User._id user := user]> (users st)) (products st) (carts st)).

(** Modelled from the spec: [user.hasSetNonDefaultAddress()] of the user
    model, the capability check that the direct comparison with the default
    address repeats. *)
Definition User_hasSetNonDefaultAddress (user : User.t) : M bool :=
  mret (negb (String.eqb (User.address user) (Config.default_address config))).

(** [Product.findById(productId)]: the product document with that [_id]. *)
Definition Product_findById (productId : ObjectId) : M (option Product.t) := λ st,
  (Ok (find (λ p, N.eqb (Product._id p) productId) (products st)), st).

(** [Cart.findOne({email})] *)
Definition Cart_findOne (email : string) : M (option Cart.t) := λ st,
  (Ok (carts st !! email), st).

(** Modelled from the spec: [Cart.create] of the cart model; there is at
    most one cart per user e-mail, so the store refuses a second one. *)
Definition Cart_create (email : string) (cart : Cart.t) : M Cart.t := λ st,
  match carts st !! email with
  | Some _ => (Throw (StoreError "duplicate key"), st)
  | None =>
      (Ok cart, mkStore (users st) (products st) (<[email := cart]> (carts st)))
  end.

(** [cart.save()], for the cart document of [email]. *)
Definition Cart_save (email : string) (cart : Cart.t) : M unit := λ st,
  (Ok (), mkStore (users st) (products st) (<[email := cart]> (carts st))).

(** ** User service *)

Definition getUserById (id : ObjectId) : M User.t :=
  user ← User_findById id;
  match user with
  | None => throw (ApiError httpStatus.BAD_REQUEST "User not found")
  | Some user => mret user
  end.

Definition getUserByEmail (email : string) : M (option User.t) :=
  user ← User_findOne_email email;
  mret user.

Definition createUser (user : UserBody.t) : M User.t :=
  isExist ← User_isEmailTaken (UserBody.email user);
  if (isExist : bool) then
    throw (ApiError httpStatus.OK "Email already taken")
  else
    newUser ← User_create user;
    mret newUser.

(** What [getUserAddressById] returns: [{address}] or
    [{_id, address, email}]. *)
Inductive AddressView :=
| AddressOnly (address : string)
| IdAddressEmail (_id : ObjectId) (address : string) (email : string).

(** Reading a property of a value that may be [null]. *)
Definition get_property {A} (prop : string) (f : User.t → A)
    (user : option User.t) : M A :=
  match user with
  | Some u => mret (f u)
  | None => throw (TypeError ("Cannot read property '" +:+ prop +:+ "' of null"))
  end.

Definition getUserAddressById (id : ObjectId) (q : bool) : M AddressView :=
  user ← User_findById id;
  if q then
    address ← get_property "address" User.address user;
    mret (AddressOnly address)
  else
    address ← get_property "address" User.address user;
    email ← get_property "email" User.email user;
    mret (IdAddressEmail id address email).

Definition setAddress (user : User.t) (newAddress : string) : M string :=
  let user := User.mk (User._id user) (User.name user) (User.email user)
                      (User.password user) newAddress (User.walletMoney user) in
  _ ← User_save user;
  mret (User.address user).

(** ** Cart service *)

Definition getCartByUser (user : User.t) : M Cart.t :=
  cart ← Cart_findOne (User.email user);
  match cart with
  | None => throw (ApiError httpStatus.NOT_FOUND "User does not have a cart")
  | Some cart => mret cart
  end.

(** [item.product._id.equals(productId)] *)
Definition is_product (productId : ObjectId) (item : CartItem.t) : bool :=
  N.eqb (Product._id (CartItem.product item)) productId.

(** [!userCart.cartItems.length === 0], which JavaScript reads as
    [(!userCart.cartItems.length) === 0]. *)
Definition length_guard (cartItems : list CartItem.t) : bool :=
  js_strict_equals (js_not (JsNumber (Z.of_nat (length cartItems)))) (JsNumber 0).

Definition addProductToCart (user : User.t) (productId : ObjectId)
    (quantity : Z) : M Cart.t :=
  found ← Cart_findOne (User.email user);
  userCart ←
    match found with
    | Some userCart => mret userCart
    | None =>
        try_catch_throw
          (userCart ← Cart_create (User.email user)
                        (Cart.mk [] (Config.default_payment_option config));
           _ ← Cart_save (User.email user) userCart;
           mret userCart)
          (ApiError httpStatus.INTERNAL_SERVER_ERROR "500 Internal Server Error")
    end;
  if length_guard (Cart.cartItems userCart) then
    throw (ApiError httpStatus.BAD_REQUEST "Bad Request")
  else
    let exist := existsb (is_product productId) (Cart.cartItems userCart) in
    if exist then
      throw (ApiError httpStatus.BAD_REQUEST
               "Product already in cart. Use the cart sidebar to update or remove product from cart")
    else
      product ← Product_findById productId;
      match product with
      | None =>
          throw (ApiError httpStatus.BAD_REQUEST "Product doesn't exist in database")
      | Some product =>
          let userCart :=
            Cart.mk (Cart.cartItems userCart ++ [CartItem.mk product quantity])
                    (Cart.paymentOption userCart) in
          _ ← Cart_save (User.email user) userCart;
          mret userCart
      end.

(** [cartItems.find(...)] and [cartItems.findIndex(...)]: the first line
    item of the product, with its position in the array. *)
Definition find_item (productId : ObjectId) (cartItems : list CartItem.t)
    : option (nat * CartItem.t) :=
  list_find (λ item, is_product productId item = true) cartItems.

Definition updateProductInCart (user : User.t) (productId : ObjectId)
    (quantity : Z) : M Cart.t :=
  userCart ← Cart_findOne (User.email user);
  match userCart with
  | None =>
      throw (ApiError httpStatus.BAD_REQUEST
               "User does not have a cart. Use POST to create cart and add a product")
  | Some userCart =>
      product ← Product_findById productId;
      match product with
      | None =>
          throw (ApiError httpStatus.BAD_REQUEST "Product doesn't exist in database")
      | Some _ =>
          match find_item productId (Cart.cartItems userCart) with
          | None => throw (ApiError httpStatus.BAD_REQUEST "Product not in cart")
          | Some (i, productExist) =>
              (* productExist.quantity = quantity, on the item inside the array *)
              let userCart :=
                Cart.mk (<[i := CartItem.mk (CartItem.product productExist) quantity]>
                           (Cart.cartItems userCart))
                        (Cart.paymentOption userCart) in
              _ ← Cart_save (User.email user) userCart;
              mret userCart
          end
      end
  end.

Definition deleteProductFromCart (user : User.t) (productId : ObjectId)
    : M Cart.t :=
  userCart ← Cart_findOne (User.email user);
  match userCart with
  | None => throw (ApiError httpStatus.BAD_REQUEST "User does not have a cart")
  | Some userCart =>
      match find_item productId (Cart.cartItems userCart) with
      | None => throw (ApiError httpStatus.BAD_REQUEST "Product not in cart")
      | Some (productExist, _) =>
          (* cartItems.splice(productExist, 1) *)
          let userCart :=
            Cart.mk (delete productExist (Cart.cartItems userCart))
                    (Cart.paymentOption userCart) in
          _ ← Cart_save (User.email user) userCart;
          mret userCart
      end
  end.

(** The loop of [checkout]:
    [cartItems.forEach((item) => totalCost += item.product.cost * item.quantity)]
    from [totalCost = 0]. *)
Definition totalCost (cartItems : list CartItem.t) : Z :=
  fold_left
    (λ totalCost item,
       js_add totalCost
         (js_mul (Product.cost (CartItem.product item)) (CartItem.quantity item)))
    cartItems 0.

(** [checkout] on a store that rejects the writes [rejects] tells. *)
Definition checkout_on (rejects : Write → bool) (user : User.t) : M Cart.t :=
  userCart ← Cart_findOne (User.email user);
  match userCart with
  | None => throw (ApiError httpStatus.NOT_FOUND "User does not have a cart")
  | Some userCart =>
      if Nat.eqb (length (Cart.cartItems userCart)) 0 then
        throw (ApiError httpStatus.BAD_REQUEST "User cart is empty")
      else
        validUserAddress ← User_hasSetNonDefaultAddress user;
        if negb validUserAddress then
          throw (ApiError httpStatus.BAD_REQUEST "Address is not set")
        else if String.eqb (User.address user) (Config.default_address config) then
          throw (ApiError httpStatus.BAD_REQUEST "Address is not set")
        else
          let totalCost := totalCost (Cart.cartItems userCart) in
          if Z.ltb (User.walletMoney user) totalCost then
            throw (ApiError httpStatus.BAD_REQUEST "Wallet Balance is Insufficient")
          else
            let currMoney := js_sub (User.walletMoney user) totalCost in
            let user := User.mk (User._id user) (User.name user) (User.email user)
                                (User.password user) (User.address user) currMoney in
            _ ← save_unless rejects SaveUser (User_save user);
            let userCart := Cart.mk [] (Cart.paymentOption userCart) in
            _ ← save_unless rejects SaveCart (Cart_save (User.email user) userCart);
            mret userCart
  end.

(** [checkout] on the reliable store. *)
Definition checkout (user : User.t) : M Cart.t := checkout_on accepts_all user.

End Services.

(** ** The words of the specification *)

(** Total cost as the specification words it: the sum over the line items
    of unit product cost times quantity. *)
Definition total_cost_spec (cartItems : list CartItem.t) : Z :=
  foldr Z.add 0
    (map (λ item, Product.cost (CartItem.product item) * CartItem.quantity item)
         cartItems).

(** Every cost, every quantity, every product and every partial sum of the
    loop of [checkout], when it is started from [acc], is a safe integer. *)
Fixpoint safe_sum (acc : Z) (cartItems : list CartItem.t) : Prop :=
  match cartItems with
  | [] => True
  | item :: rest =>
      safe_integer (Product.cost (CartItem.product item))
      ∧ safe_integer (CartItem.quantity item)
      ∧ safe_integer
          (Product.cost (CartItem.product item) * CartItem.quantity item)
      ∧ safe_integer
          (acc + Product.cost (CartItem.product item) * CartItem.quantity item)
      ∧ safe_sum
          (acc + Product.cost (CartItem.product item) * CartItem.quantity item)
          rest
  end.

Definition safe_cart (cartItems : list CartItem.t) : Prop :=
  safe_sum 0 cartItems.

(** The numbers of a checkout are safe integers: those of the cart, the
    wallet balance and the balance that is left. *)
Definition safe_checkout (user : User.t) (cart : Cart.t) : Prop :=
  safe_cart (Cart.cartItems cart)
  ∧ safe_integer (User.walletMoney user)
  ∧ safe_integer (User.walletMoney user - total_cost_spec (Cart.cartItems cart)).

(** The stored wallet balance of the user [id]. *)
Definition wallet_of (id : ObjectId) (st : Store) : option Z :=
  User.walletMoney <$> users st !! id.

(** The identifiers of the products of a cart, in order. *)
Definition product_ids (cartItems : list CartItem.t) : list ObjectId :=
  (λ item, Product._id (CartItem.product item)) <$> cartItems.

(** A given product appears at most once in the cart. *)
Definition at_most_once (cart : Cart.t) : Prop :=
  NoDup (product_ids (Cart.cartItems cart)).

(** Every cart of the store has each of its products at most once. *)
Definition carts_invariant (st : Store) : Prop :=
  map_Forall (λ _ cart, at_most_once cart) (carts st).

(** The e-mail is registered: some stored user carries it. *)
Definition registered (email : string) (st : Store) : Prop :=
  ∃ id u, users st !! id = Some u ∧ User.email u = email.

(** The line items of the cart of [email], none when there is no cart. *)
Definition line_items (email : string) (st : Store) : list CartItem.t :=
  match carts st !! email with
  | Some cart => Cart.cartItems cart
  | None => []
  end.

(** The user document after a debit of [total]:
    [user.walletMoney = user.walletMoney - totalCost]. *)
Definition debited (user : User.t) (total : Z) : User.t :=
  User.mk (User._id user) (User.name user) (User.email user)
          (User.password user) (User.address user)
          (js_sub (User.walletMoney user) total).

(** The cart document after it is cleared. *)
Definition cleared (cart : Cart.t) : Cart.t :=
  Cart.mk [] (Cart.paymentOption cart).

(** The store after [user] has paid for [cart]: the wallet is debited by
    the total that [checkout] computes and the cart is cleared. *)
Definition checked_out (user : User.t) (cart : Cart.t) (st : Store) : Store :=
  mkStore
    (<[User._id user := debited user (totalCost (Cart.cartItems cart))]>
       (users st))
    (products st)
    (<[User.email user := cleared cart]> (carts st)).

(** The product identifier resolves in the catalogue. *)
Definition in_catalog (productId : ObjectId) (st : Store) : Prop :=
  ∃ product, product ∈ products st ∧ Product._id product = productId.

(** The store in which [cart] is the cart document of [email]. *)
Definition with_cart (email : string) (cart : Cart.t) (st : Store) : Store :=
  mkStore (users st) (products st) (<[email := cart]> (carts st)).

(** The cart that [addProductToCart] creates for a user who has none. *)
Definition new_cart (config : Config.t) : Cart.t :=
  Cart.mk [] (Config.default_payment_option config).

(** [cart] with one more line item at the end. *)
Definition pushed (cart : Cart.t) (product : Product.t) (quantity : Z) : Cart.t :=
  Cart.mk (Cart.cartItems cart ++ [CartItem.mk product quantity])
          (Cart.paymentOption cart).

(** [cart] with the quantity of its line item at position [i] overwritten. *)
Definition requantified (cart : Cart.t) (i : nat) (item : CartItem.t)
    (quantity : Z) : Cart.t :=
  Cart.mk (<[i := CartItem.mk (CartItem.product item) quantity]> (Cart.cartItems cart))
          (Cart.paymentOption cart).

(** [cart] without its line item at position [i]. *)
Definition spliced (cart : Cart.t) (i : nat) : Cart.t :=
  Cart.mk (delete i (Cart.cartItems cart)) (Cart.paymentOption cart).

(** The errors of the cart service. *)
Definition AlreadyInCart : Exn :=
  ApiError httpStatus.BAD_REQUEST
    "Product already in cart. Use the cart sidebar to update or remove product from cart".
Definition ProductNotFound : Exn :=
  ApiError httpStatus.BAD_REQUEST "Product doesn't exist in database".
Definition NotInCart : Exn :=
  ApiError httpStatus.BAD_REQUEST "Product not in cart".

(** The store in which [user] is the user document of its [_id]. *)
Definition with_user (user : User.t) (st : Store) : Store :=
  mkStore (<[User._id user := user]> (users st)) (products st) (carts st).

(** The errors of the user service. *)
Definition EmailTaken : Exn := ApiError httpStatus.OK "Email already taken".
Definition UserNotFound : Exn := ApiError httpStatus.BAD_REQUEST "User not found".

(** The insufficient balance error of [checkout]. *)
Definition InsufficientBalance : Exn :=
  ApiError httpStatus.BAD_REQUEST "Wallet Balance is Insufficient".

(** ** The specification read in exact arithmetic

    What the specification says of [checkout] when its total and its
    difference are read as the exact sum and the exact difference, and what
    it says of the two writes and of the rejection of [createUser]. *)

(** A checkout whose balance covers the exact total succeeds, clears the
    cart and leaves exactly the old balance minus the exact total. *)
Definition exact_checkout (config : Config.t) (user : User.t) (st : Store)
    (cart : Cart.t) : Prop :=
  carts st !! User.email user = Some cart →
  Cart.cartItems cart ≠ [] →
  User.address user ≠ Config.default_address config →
  total_cost_spec (Cart.cartItems cart) ≤ User.walletMoney user →
  result (checkout config user st) = Ok (cleared cart)
  ∧ line_items (User.email user) (final (checkout config user st)) = []
  ∧ wallet_of (User._id user) (final (checkout config user st))
    = Some (User.walletMoney user - total_cost_spec (Cart.cartItems cart)).



(** The rejection of a sign-up with a registered e-mail is a client error. *)
Definition rejected_as_client_error (config : Config.t) (body : UserBody.t)
    (st : Store) : Prop :=
  registered (UserBody.email body) st →
  ∃ e, result (createUser config body st) = Throw e ∧ client_error e = true.

(** ** A sample store

    The scenario of the specification: a cart with product A (cost 100,
    quantity 2) and product B (cost 50, quantity 1), and a user whose
    address is set. *)

Definition sample_config : Config.t :=
  Config.mk "ADDRESS_NOT_SET" "PAYMENT_OPTION_DEFAULT" 500.

Definition product_A : Product.t := Product.mk 1 "A" 100.
Definition product_B : Product.t := Product.mk 2 "B" 50.
Definition product_C : Product.t := Product.mk 3 "C" 20.

Definition sample_user (walletMoney : Z) : User.t :=
  User.mk 7 "crio-user" "crio-user@gmail.com" "usersPasswordHashed"
          "12, Main Street" walletMoney.

Definition sample_cart : Cart.t :=
  Cart.mk [CartItem.mk product_A 2; CartItem.mk product_B 1]
          "PAYMENT_OPTION_DEFAULT".

Definition sample_store (walletMoney : Z) : Store :=
  mkStore {[ 7%N := sample_user walletMoney ]}
          [product_A; product_B; product_C]
          {[ "crio-user@gmail.com" := sample_cart ]}.

(** The user document after [user.address = newAddress]. *)
Definition readdressed (user : User.t) (newAddress : string) : User.t :=
  User.mk (User._id user) (User.name user) (User.email user)
          (User.password user) newAddress (User.walletMoney user).

(** No two stored users share an e-mail. *)
Definition unique_emails (st : Store) : Prop :=
  ∀ i j u v, users st !! i = Some u → users st !! j = Some v →
             User.email u = User.email v → i = j.


(** From [st] to [st'] nothing changed but, at most, the cart of [email]. *)
Definition only_cart_changed (email : string) (st st' : Store) : Prop :=
  users st' = users st
  ∧ products st' = products st
  ∧ ∀ other, other ≠ email → carts st' !! other = carts st !! other.

(** From [st] to [st'] nothing changed but, at most, the cart of [email]
    and the user document of [id]. *)
Definition only_cart_and_user_changed (email : string) (id : ObjectId)
    (st st' : Store) : Prop :=
  products st' = products st
  ∧ (∀ other, other ≠ email → carts st' !! other = carts st !! other)
  ∧ ∀ other, other ≠ id → users st' !! other = users st !! other.

(** The other errors of the cart service. *)
Definition CartNotFound : Exn :=
  ApiError httpStatus.NOT_FOUND "User does not have a cart".
Definition NoCartToUpdate : Exn :=
  ApiError httpStatus.BAD_REQUEST
    "User does not have a cart. Use POST to create cart and add a product".
Definition NoCartToDeleteFrom : Exn :=
  ApiError httpStatus.BAD_REQUEST "User does not have a cart".
Definition EmptyCart : Exn :=
  ApiError httpStatus.BAD_REQUEST "User cart is empty".
Definition AddressNotSet : Exn :=
  ApiError httpStatus.BAD_REQUEST "Address is not set".

(** Carts whose total is beyond the safe integers: one line item of cost
    and quantity 94906267, and two line items of 94906267 times 94906269
    and of 3 times 1. *)
Definition product_E : Product.t := Product.mk 5 "E" 94906267.
Definition product_F : Product.t := Product.mk 6 "F" 3.

Definition square_cart : Cart.t :=
  Cart.mk [CartItem.mk product_E 94906267] "PAYMENT_OPTION_DEFAULT".

Definition boundary_cart : Cart.t :=
  Cart.mk [CartItem.mk product_E 94906269; CartItem.mk product_F 1]
          "PAYMENT_OPTION_DEFAULT".

Definition large_store (walletMoney : Z) (cart : Cart.t) : Store :=
  mkStore {[ 7%N := sample_user walletMoney ]}
          [product_E; product_F]
          {[ "crio-user@gmail.com" := cart ]}.

(** A store that rejects the save of the cart and accepts the save of the
    user. *)
Definition rejects_cart_save : Write → bool :=
  λ write, match write with SaveCart => true | SaveUser => false end.

(** A stale line item: a product that left the catalogue after it was put
    in the cart. *)
Definition product_D : Product.t := Product.mk 4 "D" 10.

Definition stale_cart : Cart.t :=
  Cart.mk [CartItem.mk product_A 2; CartItem.mk product_D 1]
          "PAYMENT_OPTION_DEFAULT".

Definition stale_store : Store :=
  mkStore {[ 7%N := sample_user 300 ]}
          [product_A; product_B; product_C]
          {[ "crio-user@gmail.com" := stale_cart ]}.

(** A store in which the sample user has no cart yet. *)
Definition cartless_store : Store :=
  mkStore {[ 7%N := sample_user 300 ]} [product_A; product_B; product_C] ∅.

(** * Properties *)

(** ** Running a computation *)

Ltac run_store :=
  unfold User_findById, User_findOne_email, User_isEmailTaken, User_create,
    User_save, User_hasSetNonDefaultAddress, Product_findById, Cart_findOne,
    Cart_create, Cart_save, get_property, try_catch_throw, save_unless.

Ltac run :=
  run_store; unfold mbind, M_bind, mret, M_ret, throw, result, final; cbn.

Lemma length_nonzero {A} (l : list A) : l ≠ [] → Nat.eqb (length l) 0 = false.
Proof. destruct l; cbn; congruence. Qed.

(** ** JavaScript numbers *)

Lemma binary64_round_safe (x : Z) : safe_integer x → binary64_round x = x.
Proof.
  unfold safe_integer, MAX_SAFE_INTEGER, binary64_round. intros S.
  assert (Z.log2 (Z.abs x) - 52 ≤ 0) as L.
  { destruct (decide (Z.abs x = 0)) as [->|NZ]; [done|].
    assert (Z.log2 (Z.abs x) < 53); [|lia].
    apply Z.log2_lt_pow2; lia. }
  apply Z.leb_le in L. by rewrite L.
Qed.

Lemma js_add_safe (a b : Z) : safe_integer (a + b) → js_add a b = a + b.
Proof. apply binary64_round_safe. Qed.

Lemma js_sub_safe (a b : Z) : safe_integer (a - b) → js_sub a b = a - b.
Proof. apply binary64_round_safe. Qed.

Lemma js_mul_safe (a b : Z) : safe_integer (a * b) → js_mul a b = a * b.
Proof. apply binary64_round_safe. Qed.


(** The rounding of the model is the rounding of the kernel's binary64
    floats on the numbers beyond the safe integers that are used below. *)
Example binary64_round_is_binary64 :
  PrimFloat.mul (to_float 94906267) (to_float 94906267)
  = to_float (js_mul 94906267 94906267)
  ∧ js_mul 94906267 94906267 = 9007199515875288
  ∧ PrimFloat.mul (to_float 94906267) (to_float 94906269)
    = to_float (js_mul 94906267 94906269)
  ∧ PrimFloat.add (to_float (js_mul 94906267 94906269)) (to_float 3)
    = to_float (js_add (js_mul 94906267 94906269) 3)
  ∧ js_add (js_mul 94906267 94906269) 3 = 9007199705687828
  ∧ PrimFloat.sub (to_float 9007199515875290) (to_float 9007199515875288)
    = to_float (js_sub 9007199515875290 9007199515875288).
Proof. repeat split; by vm_compute. Qed.

(** ** The total cost *)

Lemma fold_total_cost (cartItems : list CartItem.t) (acc : Z) :
  safe_sum acc cartItems →
  fold_left
    (λ totalCost item,
       js_add totalCost
         (js_mul (Product.cost (CartItem.product item)) (CartItem.quantity item)))
    cartItems acc
  = acc + total_cost_spec cartItems.
Proof.
  revert acc. induction cartItems as [|item rest IH]; intros acc S; cbn.
  - unfold total_cost_spec. cbn. lia.
  - destruct S as (_ & _ & P & A & S).
    rewrite (js_mul_safe _ _ P), (js_add_safe _ _ A), (IH _ S).
    unfold total_cost_spec. cbn. lia.
Qed.

(** On safe integers the loop of [checkout] computes the sum the
    specification describes. *)
Lemma totalCost_is_sum (cartItems : list CartItem.t) :
  safe_cart cartItems → totalCost cartItems = total_cost_spec cartItems.
Proof. intros S. unfold totalCost. rewrite (fold_total_cost _ _ S). lia. Qed.

(** ** Checkout *)

(** The outcomes of [checkout], by the state it runs from and by what the
    store does with the two writes. *)
Lemma checkout_on_cases (config : Config.t) (rejects : Write → bool)
    (user : User.t) (st : Store) :
  match carts st !! User.email user with
  | None => checkout_on config rejects user st = (Throw CartNotFound, st)
  | Some cart =>
      (Cart.cartItems cart = [] ∧
       checkout_on config rejects user st = (Throw EmptyCart, st))
      ∨ (Cart.cartItems cart ≠ [] ∧
         User.address user = Config.default_address config ∧
         checkout_on config rejects user st = (Throw AddressNotSet, st))
      ∨ (Cart.cartItems cart ≠ [] ∧
         User.address user ≠ Config.default_address config ∧
         User.walletMoney user < totalCost (Cart.cartItems cart) ∧
         checkout_on config rejects user st = (Throw InsufficientBalance, st))
      ∨ (Cart.cartItems cart ≠ [] ∧
         User.address user ≠ Config.default_address config ∧
         totalCost (Cart.cartItems cart) ≤ User.walletMoney user ∧
         checkout_on config rejects user st
         = if rejects SaveUser then (Throw (StoreError "save rejected"), st)
           else if rejects SaveCart then
             (Throw (StoreError "save rejected"),
              with_user (debited user (totalCost (Cart.cartItems cart))) st)
           else (Ok (cleared cart), checked_out user cart st))
  end.
Proof.
  unfold checkout_on. run.
  destruct (carts st !! User.email user) as [cart|] eqn:H; [|done].
  destruct (decide (Cart.cartItems cart = [])) as [E|NE].
  { left. by rewrite E. }
  rewrite (length_nonzero _ NE).
  destruct (decide (User.address user = Config.default_address config)) as [A|A].
  { right; left. rewrite A, String.eqb_refl. done. }
  pose proof A as A'. apply String.eqb_neq in A'. rewrite A'. cbn.
  destruct (Z.ltb_spec (User.walletMoney user) (totalCost (Cart.cartItems cart)))
    as [W|W].
  { right; right; left. done. }
  right; right; right. split_and!; try done.
  unfold save_unless. destruct (rejects SaveUser); [done|].
  by destruct (rejects SaveCart).
Qed.

Section Checkout.

Variable config : Config.t.
Variable user : User.t.
Variable st : Store.

Lemma checkout_no_cart :
  carts st !! User.email user = None →
  checkout config user st
  = (Throw (ApiError httpStatus.NOT_FOUND "User does not have a cart"), st).
Proof.
  intros H. pose proof (checkout_on_cases config accepts_all user st) as C.
  by rewrite H in C.
Qed.

Lemma checkout_empty_cart cart :
  carts st !! User.email user = Some cart →
  Cart.cartItems cart = [] →
  checkout config user st
  = (Throw (ApiError httpStatus.BAD_REQUEST "User cart is empty"), st).
Proof.
  intros H E. pose proof (checkout_on_cases config accepts_all user st) as C.
  rewrite H in C. by destruct C as [(_ & C)|[(? & _)|[(? & _)|(? & _)]]].
Qed.



Lemma checkout_sufficient cart :
  carts st !! User.email user = Some cart →
  Cart.cartItems cart ≠ [] →
  User.address user ≠ Config.default_address config →
  totalCost (Cart.cartItems cart) ≤ User.walletMoney user →
  checkout config user st = (Ok (cleared cart), checked_out user cart st).
Proof.
  intros H NE A W. pose proof (checkout_on_cases config accepts_all user st) as C.
  rewrite H in C.
  destruct C as [(? & _)|[(_ & ? & _)|[(_ & _ & ? & _)|(_ & _ & _ & C)]]];
    try done. lia.
Qed.

(** The outcomes of [checkout], by the state it runs from. *)
Lemma checkout_cases :
  match carts st !! User.email user with
  | None =>
      checkout config user st
      = (Throw (ApiError httpStatus.NOT_FOUND "User does not have a cart"), st)
  | Some cart =>
      (Cart.cartItems cart = [] ∧
       checkout config user st
       = (Throw (ApiError httpStatus.BAD_REQUEST "User cart is empty"), st))
      ∨ (Cart.cartItems cart ≠ [] ∧
         User.address user = Config.default_address config ∧
         checkout config user st
         = (Throw (ApiError httpStatus.BAD_REQUEST "Address is not set"), st))
      ∨ (Cart.cartItems cart ≠ [] ∧
         User.address user ≠ Config.default_address config ∧
         User.walletMoney user < totalCost (Cart.cartItems cart) ∧
         checkout config user st
         = (Throw (ApiError httpStatus.BAD_REQUEST "Wallet Balance is Insufficient"), st))
      ∨ (Cart.cartItems cart ≠ [] ∧
         User.address user ≠ Config.default_address config ∧
         totalCost (Cart.cartItems cart) ≤ User.walletMoney user ∧
         checkout config user st = (Ok (cleared cart), checked_out user cart st))
  end.
Proof. exact (checkout_on_cases config accepts_all user st). Qed.

End Checkout.

Ltac safe_numbers :=
  vm_compute; repeat split; intro; discriminate.

(** C1: for a user whose cart is not empty, whose address is not the default
    one and whose wallet holds at least the total cost of the cart (the sum
    over the line items of unit cost times quantity), when the numbers of
    the checkout are safe integers, [checkout] succeeds and returns the cart
    with no line item; afterwards the stored cart has no line item and the
    stored wallet balance is exactly the old balance minus the total
    cost. *)
Theorem checkout_success (config : Config.t) (user : User.t) (st : Store)
    (cart : Cart.t) :
  carts st !! User.email user = Some cart →
  Cart.cartItems cart ≠ [] →
  User.address user ≠ Config.default_address config →
  total_cost_spec (Cart.cartItems cart) ≤ User.walletMoney user →
  safe_checkout user cart →
  checkout config user st = (Ok (cleared cart), checked_out user cart st)
  ∧ Cart.cartItems (cleared cart) = []
  ∧ line_items (User.email user) (checked_out user cart st) = []
  ∧ User.walletMoney <$> users (checked_out user cart st) !! User._id user
    = Some (User.walletMoney user - total_cost_spec (Cart.cartItems cart)).
Proof.
  intros H NE A W (S & _ & D). pose proof (totalCost_is_sum _ S) as T.
  split; [apply checkout_sufficient; auto; lia|].
  split; [reflexivity|]. split.
  - unfold line_items, checked_out. cbn. by rewrite lookup_insert_eq.
  - unfold checked_out. cbn. rewrite lookup_insert_eq. cbn.
    by rewrite T, (js_sub_safe _ _ D).
Qed.

Lemma checkout_success_witness :
  checkout sample_config (sample_user 300) (sample_store 300)
  = (Ok (cleared sample_cart),
     checked_out (sample_user 300) sample_cart (sample_store 300))
  ∧ Cart.cartItems (cleared sample_cart) = []
  ∧ line_items "crio-user@gmail.com"
      (checked_out (sample_user 300) sample_cart (sample_store 300)) = []
  ∧ User.walletMoney <$>
      users (checked_out (sample_user 300) sample_cart (sample_store 300)) !! 7%N
    = Some (300 - 250).
Proof.
  apply (checkout_success sample_config (sample_user 300) (sample_store 300)
           sample_cart).
  - reflexivity.
  - discriminate.
  - discriminate.
  - vm_compute. discriminate.
  - safe_numbers.
Defined.

(** Beyond the safe integers the exact reading of C1 fails: the cart of one
    line item of cost and quantity 94906267 has the exact total
    9007199515875289, which a wallet of 9007199515875290 covers; the loop
    computes 9007199515875288, and checkout leaves 2 in the wallet, not
    1. *)
Lemma checkout_success_beyond_safe_integers :
  ¬ exact_checkout sample_config (sample_user 9007199515875290)
      (large_store 9007199515875290 square_cart) square_cart.
Proof.
  intros C. destruct C as (_ & _ & B).
  - reflexivity.
  - discriminate.
  - discriminate.
  - vm_compute. discriminate.
  - vm_compute in B. discriminate.
Qed.

Example checkout_success_beyond_safe_integers_run :
  representable 9007199515875290
  ∧ total_cost_spec (Cart.cartItems square_cart) = 9007199515875289
  ∧ totalCost (Cart.cartItems square_cart) = 9007199515875288
  ∧ wallet_of 7%N
      (final (checkout sample_config (sample_user 9007199515875290)
                (large_store 9007199515875290 square_cart)))
    = Some 2.
Proof. repeat split; by vm_compute. Qed.

(** ** Checkout and its two writes *)




Example checkout_debit_without_clear_run :
  result (checkout_on sample_config rejects_cart_save (sample_user 300)
            (sample_store 300))
  = Throw (StoreError "save rejected")
  ∧ wallet_of 7%N
      (final (checkout_on sample_config rejects_cart_save (sample_user 300)
                (sample_store 300)))
    = Some 50
  ∧ line_items "crio-user@gmail.com"
      (final (checkout_on sample_config rejects_cart_save (sample_user 300)
                (sample_store 300)))
    = Cart.cartItems sample_cart.
Proof. repeat split; by vm_compute. Qed.

(** The second scenario of the specification: with a wallet of 200 the
    checkout of the sample cart fails and the store is the one before. *)
Example checkout_scenario_insufficient :
  checkout sample_config (sample_user 200) (sample_store 200)
  = (Throw (ApiError httpStatus.BAD_REQUEST "Wallet Balance is Insufficient"),
     sample_store 200).
Proof. reflexivity. Qed.

(** ** The boundary of the balance check *)




Example checkout_exact_balance_beyond_safe_integers_run :
  representable 9007199705687826
  ∧ total_cost_spec (Cart.cartItems boundary_cart) = 9007199705687826
  ∧ totalCost (Cart.cartItems boundary_cart) = 9007199705687828
  ∧ checkout sample_config (sample_user 9007199705687826)
      (large_store 9007199705687826 boundary_cart)
    = (Throw InsufficientBalance, large_store 9007199705687826 boundary_cart).
Proof. repeat split; by vm_compute. Qed.

(** ** Looking up products and line items *)

Lemma length_guard_false (cartItems : list CartItem.t) :
  length_guard cartItems = false.
Proof. reflexivity. Qed.

Lemma is_product_true (productId : ObjectId) (item : CartItem.t) :
  is_product productId item = true
  ↔ Product._id (CartItem.product item) = productId.
Proof. unfold is_product. apply N.eqb_eq. Qed.

Lemma some_is_product (productId : ObjectId) (cartItems : list CartItem.t) :
  existsb (is_product productId) cartItems = true
  ↔ productId ∈ product_ids cartItems.
Proof.
  unfold product_ids. rewrite existsb_exists, list_elem_of_fmap. split.
  - intros (item & I & P). exists item.
    apply is_product_true in P. by rewrite <- list_elem_of_In in I.
  - intros (item & -> & I). exists item.
    rewrite <- list_elem_of_In. by rewrite is_product_true.
Qed.

Lemma some_is_product_false (productId : ObjectId) (cartItems : list CartItem.t) :
  existsb (is_product productId) cartItems = false
  ↔ productId ∉ product_ids cartItems.
Proof.
  rewrite <- some_is_product.
  destruct (existsb (is_product productId) cartItems); split; congruence.
Qed.

Lemma find_item_None (productId : ObjectId) (cartItems : list CartItem.t) :
  find_item productId cartItems = None ↔ productId ∉ product_ids cartItems.
Proof.
  unfold find_item, product_ids.
  rewrite list_find_None, Forall_forall, list_elem_of_fmap. split.
  - intros F (item & -> & I). by apply (F item I), is_product_true.
  - intros F item I P. apply F. exists item. by apply is_product_true in P.
Qed.

Lemma find_item_Some (productId : ObjectId) (cartItems : list CartItem.t)
    (i : nat) (item : CartItem.t) :
  find_item productId cartItems = Some (i, item)
  ↔ cartItems !! i = Some item
    ∧ Product._id (CartItem.product item) = productId
    ∧ ∀ j other, cartItems !! j = Some other → (j < i)%nat →
        Product._id (CartItem.product other) ≠ productId.
Proof.
  unfold find_item. rewrite list_find_Some.
  rewrite is_product_true.
  split; intros (L & P & F); (split; [done|split; [done|]]);
    intros j other Lj Lt; specialize (F j other Lj Lt);
    by rewrite is_product_true in *.
Qed.

Lemma find_item_in_cart (productId : ObjectId) (cartItems : list CartItem.t) :
  productId ∈ product_ids cartItems →
  ∃ i item, find_item productId cartItems = Some (i, item).
Proof.
  intros I. destruct (find_item productId cartItems) as [[i item]|] eqn:F; eauto.
  by apply find_item_None in F.
Qed.

Lemma catalog_find_None (productId : ObjectId) (st : Store) :
  find (λ p, N.eqb (Product._id p) productId) (products st) = None
  ↔ ¬ in_catalog productId st.
Proof.
  unfold in_catalog. split.
  - intros F (p & I & E). apply list_elem_of_In in I.
    apply (find_none _ _ F) in I. apply N.eqb_neq in I. done.
  - intros F. destruct (find _ _) as [p|] eqn:E; [|done].
    apply find_some in E as [I E]. apply N.eqb_eq in E.
    exfalso. apply F. exists p. by rewrite list_elem_of_In.
Qed.

Lemma catalog_find_Some (productId : ObjectId) (st : Store) (product : Product.t) :
  find (λ p, N.eqb (Product._id p) productId) (products st) = Some product →
  product ∈ products st ∧ Product._id product = productId.
Proof.
  intros E. apply find_some in E as [I E]. apply N.eqb_eq in E.
  by rewrite list_elem_of_In.
Qed.

Lemma catalog_find_in (productId : ObjectId) (st : Store) :
  in_catalog productId st →
  ∃ product,
    find (λ p, N.eqb (Product._id p) productId) (products st) = Some product.
Proof.
  intros I. destruct (find _ _) as [p|] eqn:E; eauto.
  by apply catalog_find_None in E.
Qed.

(** ** The outcomes of the cart mutations *)

Lemma addProductToCart_existing (config : Config.t) (user : User.t)
    (productId : ObjectId) (quantity : Z) (st : Store) (cart : Cart.t) :
  carts st !! User.email user = Some cart →
  addProductToCart config user productId quantity st
  = if existsb (is_product productId) (Cart.cartItems cart) then
      (Throw AlreadyInCart, st)
    else
      match find (λ p, N.eqb (Product._id p) productId) (products st) with
      | None => (Throw ProductNotFound, st)
      | Some product =>
          (Ok (pushed cart product quantity),
           with_cart (User.email user) (pushed cart product quantity) st)
      end.
Proof.
  intros H. unfold addProductToCart. run. rewrite H. cbn.
  destruct (existsb _ _); [reflexivity|].
  destruct (find _ _); reflexivity.
Qed.

Lemma addProductToCart_absent (config : Config.t) (user : User.t)
    (productId : ObjectId) (quantity : Z) (st : Store) :
  carts st !! User.email user = None →
  addProductToCart config user productId quantity st
  = match find (λ p, N.eqb (Product._id p) productId) (products st) with
    | None => (Throw ProductNotFound, with_cart (User.email user) (new_cart config) st)
    | Some product =>
        (Ok (pushed (new_cart config) product quantity),
         with_cart (User.email user) (pushed (new_cart config) product quantity) st)
    end.
Proof.
  intros H. unfold addProductToCart. run. rewrite H. cbn. rewrite H. cbn.
  destruct (find _ _); unfold with_cart, pushed, new_cart; cbn;
    by rewrite !insert_insert_eq.
Qed.

Lemma updateProductInCart_cases (user : User.t) (productId : ObjectId)
    (quantity : Z) (st : Store) :
  updateProductInCart user productId quantity st
  = match carts st !! User.email user with
    | None =>
        (Throw (ApiError httpStatus.BAD_REQUEST
                  "User does not have a cart. Use POST to create cart and add a product"),
         st)
    | Some cart =>
        match find (λ p, N.eqb (Product._id p) productId) (products st) with
        | None => (Throw ProductNotFound, st)
        | Some _ =>
            match find_item productId (Cart.cartItems cart) with
            | None => (Throw NotInCart, st)
            | Some (i, item) =>
                (Ok (requantified cart i item quantity),
                 with_cart (User.email user) (requantified cart i item quantity) st)
            end
        end
    end.
Proof.
  unfold updateProductInCart. run.
  destruct (carts st !! User.email user) as [cart|]; [|reflexivity].
  destruct (find _ _); [|reflexivity].
  destruct (find_item _ _) as [[i item]|]; reflexivity.
Qed.

Lemma deleteProductFromCart_cases (user : User.t) (productId : ObjectId)
    (st : Store) :
  deleteProductFromCart user productId st
  = match carts st !! User.email user with
    | None =>
        (Throw (ApiError httpStatus.BAD_REQUEST "User does not have a cart"), st)
    | Some cart =>
        match find_item productId (Cart.cartItems cart) with
        | None => (Throw NotInCart, st)
        | Some (i, _) =>
            (Ok (spliced cart i), with_cart (User.email user) (spliced cart i) st)
        end
    end.
Proof.
  unfold deleteProductFromCart. run.
  destruct (carts st !! User.email user) as [cart|]; [|reflexivity].
  destruct (find_item _ _) as [[i item]|]; reflexivity.
Qed.

Lemma getCartByUser_final (user : User.t) (st : Store) :
  final (getCartByUser user st) = st.
Proof.
  unfold getCartByUser. run. by destruct (carts st !! User.email user).
Qed.

(** ** A product at most once per cart *)

Lemma at_most_once_pushed (cart : Cart.t) (product : Product.t) (quantity : Z) :
  at_most_once cart →
  Product._id product ∉ product_ids (Cart.cartItems cart) →
  at_most_once (pushed cart product quantity).
Proof.
  unfold at_most_once, pushed, product_ids. cbn. intros ND NI.
  rewrite fmap_app. cbn. apply NoDup_app. split; [done|]. split.
  - intros x I ->%list_elem_of_singleton. done.
  - apply NoDup_singleton.
Qed.

Lemma product_ids_requantified (cart : Cart.t) (i : nat) (item : CartItem.t)
    (quantity : Z) :
  Cart.cartItems cart !! i = Some item →
  product_ids (Cart.cartItems (requantified cart i item quantity))
  = product_ids (Cart.cartItems cart).
Proof.
  intros L. unfold requantified, product_ids. cbn.
  rewrite list_fmap_insert. cbn. apply list_insert_id.
  by rewrite list_lookup_fmap, L.
Qed.

Lemma at_most_once_spliced (cart : Cart.t) (i : nat) :
  at_most_once cart → at_most_once (spliced cart i).
Proof.
  unfold at_most_once, spliced, product_ids. cbn. intros ND.
  rewrite list_fmap_delete. eapply sublist_NoDup; [done|apply sublist_delete].
Qed.

Lemma carts_invariant_with_cart (email : string) (cart : Cart.t) (st : Store) :
  carts_invariant st → at_most_once cart →
  carts_invariant (with_cart email cart st).
Proof. unfold carts_invariant, with_cart. cbn. intros. by apply map_Forall_insert_2. Qed.

Lemma carts_invariant_lookup (email : string) (cart : Cart.t) (st : Store) :
  carts_invariant st → carts st !! email = Some cart → at_most_once cart.
Proof. intros I L. exact (map_Forall_lookup_1 _ _ _ _ I L). Qed.

Lemma at_most_once_nil (paymentOption : string) :
  at_most_once (Cart.mk [] paymentOption).
Proof. unfold at_most_once, product_ids. cbn. apply NoDup_nil_2. Qed.

Lemma addProductToCart_invariant (config : Config.t) (user : User.t)
    (productId : ObjectId) (quantity : Z) (st : Store) :
  carts_invariant st →
  carts_invariant (final (addProductToCart config user productId quantity st)).
Proof.
  intros I. destruct (carts st !! User.email user) as [cart|] eqn:H.
  - rewrite (addProductToCart_existing _ _ _ _ _ _ H).
    destruct (existsb _ _) eqn:E; [done|].
    destruct (find _ _) as [product|] eqn:F; [|done].
    apply catalog_find_Some in F as [_ F]. apply some_is_product_false in E.
    apply carts_invariant_with_cart; [done|].
    apply at_most_once_pushed; [by eapply carts_invariant_lookup|by rewrite F].
  - rewrite (addProductToCart_absent _ _ _ _ _ H).
    destruct (find _ _) as [product|] eqn:F; cbn;
      (apply carts_invariant_with_cart; [done|]).
    + apply at_most_once_pushed; [apply at_most_once_nil|]. cbn. apply not_elem_of_nil.
    + apply at_most_once_nil.
Qed.

Lemma updateProductInCart_invariant (user : User.t) (productId : ObjectId)
    (quantity : Z) (st : Store) :
  carts_invariant st →
  carts_invariant (final (updateProductInCart user productId quantity st)).
Proof.
  intros I. rewrite updateProductInCart_cases.
  destruct (carts st !! User.email user) as [cart|] eqn:H; [|done].
  destruct (find _ _); [|done].
  destruct (find_item _ _) as [[i item]|] eqn:F; [|done].
  apply find_item_Some in F as (L & _ & _).
  apply carts_invariant_with_cart; [done|].
  unfold at_most_once. rewrite (product_ids_requantified _ _ _ _ L).
  by eapply carts_invariant_lookup.
Qed.

Lemma deleteProductFromCart_invariant (user : User.t) (productId : ObjectId)
    (st : Store) :
  carts_invariant st →
  carts_invariant (final (deleteProductFromCart user productId st)).
Proof.
  intros I. rewrite deleteProductFromCart_cases.
  destruct (carts st !! User.email user) as [cart|] eqn:H; [|done].
  destruct (find_item _ _) as [[i item]|] eqn:F; [|done].
  apply carts_invariant_with_cart; [done|].
  apply at_most_once_spliced. by eapply carts_invariant_lookup.
Qed.

Lemma checkout_invariant (config : Config.t) (user : User.t) (st : Store) :
  carts_invariant st → carts_invariant (final (checkout config user st)).
Proof.
  intros I. pose proof (checkout_cases config user st) as C.
  destruct (carts st !! User.email user) as [cart|]; [|by rewrite C].
  destruct C as [(_ & C)|[(_ & _ & C)|[(_ & _ & _ & C)|(_ & _ & _ & C)]]];
    rewrite C; try done.
  unfold carts_invariant, checked_out, final. cbn.
  apply map_Forall_insert_2; [apply at_most_once_nil|done].
Qed.

Lemma addProductToCart_duplicate (config : Config.t) (user : User.t)
    (productId : ObjectId) (quantity : Z) (st : Store) (cart : Cart.t) :
  carts st !! User.email user = Some cart →
  productId ∈ product_ids (Cart.cartItems cart) →
  addProductToCart config user productId quantity st = (Throw AlreadyInCart, st).
Proof.
  intros H I. rewrite (addProductToCart_existing _ _ _ _ _ _ H).
  apply some_is_product in I. by rewrite I.
Qed.

(** After a successful addition the product is a line item of the stored
    cart. *)
Lemma addProductToCart_added (config : Config.t) (user : User.t)
    (productId : ObjectId) (quantity : Z) (st st' : Store) (cart' : Cart.t) :
  addProductToCart config user productId quantity st = (Ok cart', st') →
  carts st' !! User.email user = Some cart'
  ∧ productId ∈ product_ids (Cart.cartItems cart').
Proof.
  intros R. destruct (carts st !! User.email user) as [cart|] eqn:H.
  - rewrite (addProductToCart_existing _ _ _ _ _ _ H) in R.
    destruct (existsb _ _); [done|].
    destruct (find _ _) as [product|] eqn:F; [|done].
    apply catalog_find_Some in F as [_ F]. inversion R; subst. split.
    + unfold with_cart. cbn. by rewrite lookup_insert_eq.
    + unfold pushed, product_ids. cbn. rewrite fmap_app. cbn. set_solver.
  - rewrite (addProductToCart_absent _ _ _ _ _ H) in R.
    destruct (find _ _) as [product|] eqn:F; [|done].
    apply catalog_find_Some in F as [_ F]. inversion R; subst. split.
    + unfold with_cart. cbn. by rewrite lookup_insert_eq.
    + unfold pushed, product_ids. cbn. set_solver.
Qed.

(** C4: every operation of the cart service keeps each product at most once
    in every cart of the store.  In particular [addProductToCart] for a
    product that is already a line item of the cart fails with the
    already-in-cart error and leaves the store, hence every quantity, as it
    was; so after a successful addition, adding the same product again
    fails. *)
Theorem cart_operations_keep_products_unique (config : Config.t) (user : User.t)
    (productId : ObjectId) (quantity : Z) (st : Store) :
  (carts_invariant st →
   carts_invariant (final (getCartByUser user st))
   ∧ carts_invariant (final (addProductToCart config user productId quantity st))
   ∧ carts_invariant (final (updateProductInCart user productId quantity st))
   ∧ carts_invariant (final (deleteProductFromCart user productId st))
   ∧ carts_invariant (final (checkout config user st)))
  ∧ (∀ cart, carts st !! User.email user = Some cart →
       productId ∈ product_ids (Cart.cartItems cart) →
       addProductToCart config user productId quantity st
       = (Throw AlreadyInCart, st))
  ∧ (∀ cart' st' quantity',
       addProductToCart config user productId quantity st = (Ok cart', st') →
       addProductToCart config user productId quantity' st'
       = (Throw AlreadyInCart, st')).
Proof.
  split; [|split].
  - intros I. rewrite getCartByUser_final.
    eauto 10 using addProductToCart_invariant, updateProductInCart_invariant,
      deleteProductFromCart_invariant, checkout_invariant.
  - intros cart. apply addProductToCart_duplicate.
  - intros cart' st' quantity' R.
    apply addProductToCart_added in R as [H I].
    by apply (addProductToCart_duplicate _ _ _ _ _ cart').
Qed.

Lemma sample_store_invariant (walletMoney : Z) :
  carts_invariant (sample_store walletMoney).
Proof.
  unfold carts_invariant, sample_store. cbn.
  apply map_Forall_singleton. unfold at_most_once. compute_done.
Qed.

Lemma cart_operations_keep_products_unique_witness :
  (carts_invariant (final (getCartByUser (sample_user 300) (sample_store 300)))
   ∧ carts_invariant
       (final (addProductToCart sample_config (sample_user 300) 3%N 4
                 (sample_store 300)))
   ∧ carts_invariant
       (final (updateProductInCart (sample_user 300) 3%N 4 (sample_store 300)))
   ∧ carts_invariant
       (final (deleteProductFromCart (sample_user 300) 3%N (sample_store 300)))
   ∧ carts_invariant (final (checkout sample_config (sample_user 300) (sample_store 300))))
  ∧ addProductToCart sample_config (sample_user 300) 1%N 5 (sample_store 300)
    = (Throw AlreadyInCart, sample_store 300).
Proof.
  split.
  - apply (cart_operations_keep_products_unique sample_config (sample_user 300)
             3%N 4 (sample_store 300)).
    apply sample_store_invariant.
  - refine (proj1 (proj2 (cart_operations_keep_products_unique sample_config
                             (sample_user 300) 1%N 5 (sample_store 300)))
                  sample_cart _ _).
    + reflexivity.
    + compute_done.
Defined.

(** ** Adding a product *)

(** Whatever [addProductToCart] throws is one of its two business errors,
    each with its cause. *)
Lemma addProductToCart_throws (config : Config.t) (user : User.t)
    (productId : ObjectId) (quantity : Z) (st : Store) (e : Exn) :
  result (addProductToCart config user productId quantity st) = Throw e →
  (e = AlreadyInCart ∧ productId ∈ product_ids (line_items (User.email user) st))
  ∨ (e = ProductNotFound ∧ ¬ in_catalog productId st).
Proof.
  unfold line_items. destruct (carts st !! User.email user) as [cart|] eqn:H.
  - rewrite (addProductToCart_existing _ _ _ _ _ _ H).
    destruct (existsb _ _) eqn:E.
    + apply some_is_product in E. intros [= <-]. by left.
    + destruct (find _ _) eqn:F; [done|].
      apply catalog_find_None in F. intros [= <-]. by right.
  - rewrite (addProductToCart_absent _ _ _ _ _ H).
    destruct (find _ _) eqn:F; [done|].
    apply catalog_find_None in F. intros [= <-]. by right.
Qed.

(** C5: the condition [!userCart.cartItems.length === 0] of
    [addProductToCart] is false for every cart, so the "Bad Request" error it
    guards is never thrown; an addition is rejected only because the product
    is already in the cart or because it is missing from the catalogue. *)
Theorem length_guard_unreachable (config : Config.t) (user : User.t)
    (productId : ObjectId) (quantity : Z) (st : Store) :
  (∀ cartItems, length_guard cartItems = false)
  ∧ result (addProductToCart config user productId quantity st)
    ≠ Throw (ApiError httpStatus.BAD_REQUEST "Bad Request")
  ∧ (∀ e, result (addProductToCart config user productId quantity st) = Throw e →
       (e = AlreadyInCart
        ∧ productId ∈ product_ids (line_items (User.email user) st))
       ∨ (e = ProductNotFound ∧ ¬ in_catalog productId st)).
Proof.
  split; [apply length_guard_false|]. split.
  - intros R. by apply addProductToCart_throws in R as [[? _]|[? _]].
  - apply addProductToCart_throws.
Qed.

Lemma length_guard_unreachable_witness :
  (AlreadyInCart = AlreadyInCart
   ∧ 1%N ∈ product_ids (line_items "crio-user@gmail.com" (sample_store 300)))
  ∨ (AlreadyInCart = ProductNotFound ∧ ¬ in_catalog 1%N (sample_store 300)).
Proof.
  refine (proj2 (proj2 (length_guard_unreachable sample_config (sample_user 300)
                          1%N 5 (sample_store 300)))
            AlreadyInCart _).
  reflexivity.
Defined.

(** The guard on the empty cart and on the sample cart. *)
Example length_guard_sample :
  length_guard [] = false ∧ length_guard (Cart.cartItems sample_cart) = false.
Proof. split; reflexivity. Qed.

(** C6: whatever the state of the cart, [addProductToCart] with a product
    identifier that does not resolve in the catalogue fails with a 400-class
    error and leaves the line items of the cart as they were: the missing
    product error when the product is not a line item (the only change to
    the store is then the empty cart created for a user who had none), the
    already-in-cart error when it is one. *)
Theorem addProductToCart_missing_product (config : Config.t) (user : User.t)
    (productId : ObjectId) (quantity : Z) (st : Store) :
  ¬ in_catalog productId st →
  ∃ e, result (addProductToCart config user productId quantity st) = Throw e
       ∧ client_error e = true
       ∧ (productId ∉ product_ids (line_items (User.email user) st) →
          e = ProductNotFound)
       ∧ (productId ∈ product_ids (line_items (User.email user) st) →
          e = AlreadyInCart)
       ∧ line_items (User.email user)
           (final (addProductToCart config user productId quantity st))
         = line_items (User.email user) st
       ∧ (is_Some (carts st !! User.email user) →
          final (addProductToCart config user productId quantity st) = st)
       ∧ (carts st !! User.email user = None →
          final (addProductToCart config user productId quantity st)
          = with_cart (User.email user) (new_cart config) st).
Proof.
  intros NC. apply catalog_find_None in NC. unfold line_items.
  destruct (carts st !! User.email user) as [cart|] eqn:H.
  - rewrite (addProductToCart_existing _ _ _ _ _ _ H), NC.
    destruct (existsb _ _) eqn:E.
    + apply some_is_product in E. exists AlreadyInCart. cbn. rewrite H.
      split_and!; done.
    + apply some_is_product_false in E. exists ProductNotFound. cbn. rewrite H.
      split_and!; done.
  - rewrite (addProductToCart_absent _ _ _ _ _ H), NC.
    exists ProductNotFound. cbn. rewrite lookup_insert_eq. cbn.
    split_and!; try done.
    intros I. by apply not_elem_of_nil in I.
Qed.

Lemma addProductToCart_missing_product_witness :
  ∃ e, result (addProductToCart sample_config (sample_user 300) 9%N 1
                 (sample_store 300)) = Throw e
       ∧ client_error e = true
       ∧ (9%N ∉ product_ids (line_items "crio-user@gmail.com" (sample_store 300)) →
          e = ProductNotFound)
       ∧ (9%N ∈ product_ids (line_items "crio-user@gmail.com" (sample_store 300)) →
          e = AlreadyInCart)
       ∧ line_items "crio-user@gmail.com"
           (final (addProductToCart sample_config (sample_user 300) 9%N 1
                     (sample_store 300)))
         = line_items "crio-user@gmail.com" (sample_store 300)
       ∧ (is_Some (carts (sample_store 300) !! "crio-user@gmail.com") →
          final (addProductToCart sample_config (sample_user 300) 9%N 1
                   (sample_store 300)) = sample_store 300)
       ∧ (carts (sample_store 300) !! "crio-user@gmail.com" = None →
          final (addProductToCart sample_config (sample_user 300) 9%N 1
                   (sample_store 300))
          = with_cart "crio-user@gmail.com" (new_cart sample_config)
              (sample_store 300)).
Proof.
  apply (addProductToCart_missing_product sample_config (sample_user 300) 9%N 1
           (sample_store 300)).
  apply catalog_find_None. reflexivity.
Defined.

(** A user without a cart asking for a product that does not exist: the
    error is the missing product one and the store now holds an empty cart. *)
Example addProductToCart_missing_product_no_cart :
  addProductToCart sample_config (sample_user 300) 9%N 1
    (mkStore ∅ [product_A] ∅)
  = (Throw ProductNotFound,
     mkStore ∅ [product_A]
       {[ "crio-user@gmail.com" := Cart.mk [] "PAYMENT_OPTION_DEFAULT" ]}).
Proof. reflexivity. Qed.

(** ** Updating a quantity *)

(** C7: for a user who has a cart and a product of the catalogue,
    [updateProductInCart] fails with the not-in-cart error, a 400-class one,
    and leaves the store as it was when the product is not a line item of
    the cart; when it is one, the call overwrites the quantity of that line
    item, the first of the product, at its place in the cart, leaves the
    other line items and the product of that one as they were, and stores
    the cart. *)
Theorem updateProductInCart_line_item (user : User.t) (productId : ObjectId)
    (quantity : Z) (st : Store) (cart : Cart.t) :
  carts st !! User.email user = Some cart →
  in_catalog productId st →
  (productId ∉ product_ids (Cart.cartItems cart) →
   updateProductInCart user productId quantity st = (Throw NotInCart, st)
   ∧ client_error NotInCart = true)
  ∧ (productId ∈ product_ids (Cart.cartItems cart) →
     ∃ i item,
       find_item productId (Cart.cartItems cart) = Some (i, item)
       ∧ Cart.cartItems cart !! i = Some item
       ∧ Product._id (CartItem.product item) = productId
       ∧ updateProductInCart user productId quantity st
         = (Ok (requantified cart i item quantity),
            with_cart (User.email user) (requantified cart i item quantity) st)
       ∧ Cart.cartItems (requantified cart i item quantity) !! i
         = Some (CartItem.mk (CartItem.product item) quantity)
       ∧ (∀ j, j ≠ i →
            Cart.cartItems (requantified cart i item quantity) !! j
            = Cart.cartItems cart !! j)
       ∧ length (Cart.cartItems (requantified cart i item quantity))
         = length (Cart.cartItems cart)
       ∧ Cart.paymentOption (requantified cart i item quantity)
         = Cart.paymentOption cart
       ∧ carts (with_cart (User.email user) (requantified cart i item quantity) st)
           !! User.email user
         = Some (requantified cart i item quantity)).
Proof.
  intros H C. apply catalog_find_in in C as [product C].
  rewrite updateProductInCart_cases, H, C. split.
  - intros NI. apply find_item_None in NI. by rewrite NI.
  - intros I. apply find_item_in_cart in I as (i & item & F).
    exists i, item. rewrite F.
    pose proof F as (L & P & _)%find_item_Some.
    split_and!; try done; unfold requantified; cbn.
    + apply list_lookup_insert_eq. by eapply lookup_lt_Some.
    + intros j NE. by apply list_lookup_insert_ne.
    + apply length_insert.
    + by rewrite lookup_insert_eq.
Qed.

Lemma updateProductInCart_line_item_witness :
  (updateProductInCart (sample_user 300) 3%N 4 (sample_store 300)
   = (Throw NotInCart, sample_store 300)
   ∧ client_error NotInCart = true)
  ∧ ∃ i item,
      find_item 2%N (Cart.cartItems sample_cart) = Some (i, item)
      ∧ Cart.cartItems sample_cart !! i = Some item
      ∧ Product._id (CartItem.product item) = 2%N
      ∧ updateProductInCart (sample_user 300) 2%N 4 (sample_store 300)
        = (Ok (requantified sample_cart i item 4),
           with_cart "crio-user@gmail.com" (requantified sample_cart i item 4)
             (sample_store 300))
      ∧ Cart.cartItems (requantified sample_cart i item 4) !! i
        = Some (CartItem.mk (CartItem.product item) 4)
      ∧ (∀ j, j ≠ i →
           Cart.cartItems (requantified sample_cart i item 4) !! j
           = Cart.cartItems sample_cart !! j)
      ∧ length (Cart.cartItems (requantified sample_cart i item 4))
        = length (Cart.cartItems sample_cart)
      ∧ Cart.paymentOption (requantified sample_cart i item 4)
        = Cart.paymentOption sample_cart
      ∧ carts (with_cart "crio-user@gmail.com" (requantified sample_cart i item 4)
                 (sample_store 300))
          !! "crio-user@gmail.com"
        = Some (requantified sample_cart i item 4).
Proof.
  split.
  - refine (proj1 (updateProductInCart_line_item (sample_user 300) 3%N 4
                     (sample_store 300) sample_cart _ _) _).
    + reflexivity.
    + exists product_C. split; [|reflexivity].
      apply list_elem_of_In. cbn. auto.
    + compute_done.
  - refine (proj2 (updateProductInCart_line_item (sample_user 300) 2%N 4
                     (sample_store 300) sample_cart _ _) _).
    + reflexivity.
    + exists product_B. split; [|reflexivity].
      apply list_elem_of_In. cbn. auto.
    + compute_done.
Defined.

(** Overwriting the quantity of product B in the sample cart. *)
Example updateProductInCart_sample :
  result (updateProductInCart (sample_user 300) 2%N 4 (sample_store 300))
  = Ok (Cart.mk [CartItem.mk product_A 2; CartItem.mk product_B 4]
                "PAYMENT_OPTION_DEFAULT").
Proof. reflexivity. Qed.

(** ** User service *)

Lemma isEmailTaken_registered (email : string) (st : Store) :
  bool_decide (map_Exists (λ _ u, User.email u = email) (users st)) = true
  ↔ registered email st.
Proof.
  rewrite bool_decide_eq_true. unfold registered. apply map_Exists_lookup.
Qed.

Lemma createUser_taken (config : Config.t) (body : UserBody.t) (st : Store) :
  registered (UserBody.email body) st →
  createUser config body st = (Throw EmailTaken, st).
Proof.
  intros R. apply isEmailTaken_registered in R.
  unfold createUser. run. by rewrite R.
Qed.

Lemma createUser_free (config : Config.t) (body : UserBody.t) (st : Store) :
  ¬ registered (UserBody.email body) st →
  ∃ newUser,
    createUser config body st = (Ok newUser, with_user newUser st)
    ∧ users st !! User._id newUser = None
    ∧ User.name newUser = UserBody.name body
    ∧ User.email newUser = UserBody.email body
    ∧ User.password newUser = UserBody.password body.
Proof.
  intros R. rewrite <- isEmailTaken_registered in R.
  apply not_true_is_false in R.
  exists (User.mk (fresh (dom (users st)))
            (UserBody.name body) (UserBody.email body) (UserBody.password body)
            (Config.default_address config) (Config.default_wallet_money config)).
  unfold createUser. run. rewrite R. cbn.
  split; [reflexivity|]. split_and!; try done.
  apply not_elem_of_dom, is_fresh.
Qed.

(** C8: [createUser] throws its "Email already taken" error when the e-mail
    of the request is already registered, and then writes nothing; the
    error is an [ApiError] with the status 200 OK that the source documents,
    so by its status it is not a client error.  Otherwise [createUser]
    stores and returns a new user record with the name, e-mail and password
    of the request, under an identifier no user had.  So it fails if and
    only if the e-mail is taken. *)
Theorem createUser_fails_iff_email_taken (config : Config.t) (body : UserBody.t)
    (st : Store) :
  (registered (UserBody.email body) st →
   createUser config body st = (Throw EmailTaken, st))
  ∧ (EmailTaken = ApiError 200 "Email already taken"
     ∧ is_ApiError EmailTaken = true
     ∧ client_error EmailTaken = false)
  ∧ (¬ registered (UserBody.email body) st →
     ∃ newUser,
       createUser config body st = (Ok newUser, with_user newUser st)
       ∧ users (with_user newUser st) !! User._id newUser = Some newUser
       ∧ users st !! User._id newUser = None
       ∧ User.name newUser = UserBody.name body
       ∧ User.email newUser = UserBody.email body
       ∧ User.password newUser = UserBody.password body)
  ∧ ((∃ e, result (createUser config body st) = Throw e)
     ↔ registered (UserBody.email body) st).
Proof.
  split; [apply createUser_taken|]. split; [done|]. split.
  - intros R. destruct (createUser_free config body st R)
      as (newUser & C & F & N & E & P).
    exists newUser. split_and!; try done.
    unfold with_user. cbn. by rewrite lookup_insert_eq.
  - split.
    + intros [e T].
      destruct (decide (map_Exists (λ _ u, User.email u = UserBody.email body)
                          (users st))) as [R|R].
      * by apply map_Exists_lookup in R.
      * rewrite map_Exists_lookup in R.
        destruct (createUser_free config body st R) as (newUser & C & _).
        by rewrite C in T.
    + intros R. exists EmailTaken. by rewrite createUser_taken.
Qed.

Lemma createUser_fails_iff_email_taken_witness :
  createUser sample_config
    (UserBody.mk "crio-users" "crio-user@gmail.com" "usersPasswordHashed")
    (sample_store 300)
  = (Throw EmailTaken, sample_store 300).
Proof.
  refine (proj1 (createUser_fails_iff_email_taken sample_config
                   (UserBody.mk "crio-users" "crio-user@gmail.com"
                                "usersPasswordHashed")
                   (sample_store 300)) _).
  exists 7%N, (sample_user 300). split; reflexivity.
Defined.

(** The rejection is not a client error by its status: for the registered
    e-mail of the sample store [createUser] throws an error of status 200. *)
Lemma createUser_rejection_is_not_client_error :
  ¬ rejected_as_client_error sample_config
      (UserBody.mk "crio-users" "crio-user@gmail.com" "usersPasswordHashed")
      (sample_store 300).
Proof.
  intros C. destruct C as (e & R & CE).
  - exists 7%N, (sample_user 300). split; reflexivity.
  - rewrite createUser_taken in R.
    + inversion R; subst. discriminate.
    + exists 7%N, (sample_user 300). split; reflexivity.
Qed.

(** Signing up twice with the same e-mail, and once with a new one. *)
Example createUser_sample_taken :
  createUser sample_config
    (UserBody.mk "crio-users" "crio-user@gmail.com" "usersPasswordHashed")
    (sample_store 300)
  = (Throw (ApiError 200 "Email already taken"), sample_store 300).
Proof. by vm_compute. Qed.

Example createUser_sample_new :
  result (createUser sample_config
            (UserBody.mk "other" "other@gmail.com" "otherPasswordHashed")
            (sample_store 300))
  = Ok (User.mk 8 "other" "other@gmail.com" "otherPasswordHashed"
                "ADDRESS_NOT_SET" 500).
Proof. by vm_compute. Qed.

(** C9: [getUserById] returns the user record stored under the identifier,
    and fails with its "User not found" error, a client error of status 400,
    when there is none; it writes nothing. *)
Theorem getUserById_found_or_not (id : ObjectId) (st : Store) :
  (∀ user, users st !! id = Some user → getUserById id st = (Ok user, st))
  ∧ (users st !! id = None →
     getUserById id st = (Throw UserNotFound, st)
     ∧ is_ApiError UserNotFound = true
     ∧ client_error UserNotFound = true).
Proof.
  split.
  - intros user H. unfold getUserById. run. by rewrite H.
  - intros H. unfold getUserById. run. by rewrite H.
Qed.

Lemma getUserById_found_or_not_witness :
  getUserById 7%N (sample_store 300) = (Ok (sample_user 300), sample_store 300)
  ∧ (getUserById 8%N (sample_store 300) = (Throw UserNotFound, sample_store 300)
     ∧ is_ApiError UserNotFound = true
     ∧ client_error UserNotFound = true).
Proof.
  split.
  - refine (proj1 (getUserById_found_or_not 7%N (sample_store 300))
              (sample_user 300) _).
    reflexivity.
  - refine (proj2 (getUserById_found_or_not 8%N (sample_store 300)) _).
    reflexivity.
Defined.

Example getUserById_sample :
  getUserById 7%N (sample_store 300) = (Ok (sample_user 300), sample_store 300)
  ∧ getUserById 8%N (sample_store 300)
    = (Throw (ApiError 400 "User not found"), sample_store 300).
Proof. split; reflexivity. Qed.

(** C10: [getUserAddressById] returns the address view of the user stored
    under the identifier; when there is no such user it throws no [ApiError]
    but the [TypeError] of reading [address] from [null], with or without
    the query flag.  So it returns exactly when the user exists. *)
Theorem getUserAddressById_needs_user (id : ObjectId) (q : bool) (st : Store) :
  (users st !! id = None →
   ∃ e, getUserAddressById id q st = (Throw e, st)
        ∧ e = TypeError "Cannot read property 'address' of null"
        ∧ is_ApiError e = false)
  ∧ (∀ user, users st !! id = Some user →
       getUserAddressById id q st
       = (Ok (if q then AddressOnly (User.address user)
              else IdAddressEmail id (User.address user) (User.email user)),
          st))
  ∧ ((∃ view, result (getUserAddressById id q st) = Ok view)
     ↔ is_Some (users st !! id)).
Proof.
  unfold getUserAddressById. run. destruct (users st !! id) as [user|].
  - split_and!; try done.
    + intros ? [= <-]. by destruct q.
    + split; [eauto|]. intros _. destruct q; eauto.
  - split_and!.
    + intros _. eexists. split_and!; [by destruct q|reflexivity|reflexivity].
    + done.
    + split; [|by intros [? [=]]]. intros [view V]. by destruct q.
Qed.

Lemma getUserAddressById_needs_user_witness :
  ∃ e, getUserAddressById 8%N false (sample_store 300) = (Throw e, sample_store 300)
       ∧ e = TypeError "Cannot read property 'address' of null"
       ∧ is_ApiError e = false.
Proof.
  refine (proj1 (getUserAddressById_needs_user 8%N false (sample_store 300)) _).
  reflexivity.
Defined.

Example getUserAddressById_sample :
  result (getUserAddressById 8%N true (sample_store 300))
  = Throw (TypeError "Cannot read property 'address' of null")
  ∧ result (getUserAddressById 8%N false (sample_store 300))
    = Throw (TypeError "Cannot read property 'address' of null")
  ∧ result (getUserAddressById 7%N true (sample_store 300))
    = Ok (AddressOnly "12, Main Street")
  ∧ result (getUserAddressById 7%N false (sample_store 300))
    = Ok (IdAddressEmail 7 "12, Main Street" "crio-user@gmail.com").
Proof. split_and!; reflexivity. Qed.

(** * Further properties of the services *)

(** ** Stores that differ in one cart *)

Lemma with_cart_lookup (email : string) (cart : Cart.t) (st : Store) :
  carts (with_cart email cart st) !! email = Some cart.
Proof. unfold with_cart. cbn. apply lookup_insert_eq. Qed.

Lemma with_cart_other (email other : string) (cart : Cart.t) (st : Store) :
  other ≠ email → carts (with_cart email cart st) !! other = carts st !! other.
Proof. intros NE. unfold with_cart. cbn. by apply lookup_insert_ne. Qed.

Lemma with_cart_again (email : string) (c1 c2 : Cart.t) (st : Store) :
  with_cart email c2 (with_cart email c1 st) = with_cart email c2 st.
Proof. unfold with_cart. cbn. by rewrite insert_insert_eq. Qed.

Lemma with_cart_same (email : string) (cart : Cart.t) (st : Store) :
  carts st !! email = Some cart → with_cart email cart st = st.
Proof.
  intros H. destruct st as [us ps cs]. unfold with_cart. cbn in *.
  by rewrite insert_id.
Qed.

Lemma getCartByUser_stored (user : User.t) (st : Store) (cart : Cart.t) :
  carts st !! User.email user = Some cart →
  getCartByUser user st = (Ok cart, st).
Proof. intros H. unfold getCartByUser. run. by rewrite H. Qed.

Lemma getCartByUser_missing (user : User.t) (st : Store) :
  carts st !! User.email user = None →
  getCartByUser user st = (Throw CartNotFound, st).
Proof. intros H. unfold getCartByUser. run. by rewrite H. Qed.

(** ** Adding a product that the catalogue has *)

Lemma addProductToCart_new_item (config : Config.t) (user : User.t)
    (productId : ObjectId) (quantity : Z) (st : Store) :
  in_catalog productId st →
  productId ∉ product_ids (line_items (User.email user) st) →
  ∃ product cart,
    product ∈ products st ∧ Product._id product = productId
    ∧ addProductToCart config user productId quantity st
      = (Ok cart, with_cart (User.email user) cart st)
    ∧ Cart.cartItems cart
      = (line_items (User.email user) st ++ [CartItem.mk product quantity])%list
    ∧ Cart.paymentOption cart
      = match carts st !! User.email user with
        | Some old => Cart.paymentOption old
        | None => Config.default_payment_option config
        end.
Proof.
  intros C NI. apply catalog_find_in in C as [product F].
  pose proof (catalog_find_Some _ _ _ F) as [I E].
  unfold line_items in *. exists product.
  destruct (carts st !! User.email user) as [old|] eqn:H.
  - exists (pushed old product quantity).
    rewrite (addProductToCart_existing _ _ _ _ _ _ H), F.
    apply some_is_product_false in NI. by rewrite NI.
  - exists (pushed (new_cart config) product quantity).
    by rewrite (addProductToCart_absent _ _ _ _ _ H), F.
Qed.

(** X1: [addProductToCart] for a product of the catalogue that is not yet a
    line item succeeds: the cart it returns and stores is the former list of
    line items (none for a user without a cart) followed by one new line
    item, made of the catalogue document of that identifier and the given
    quantity; the payment option is the one of the former cart, or the
    default one when the cart is created by this call. *)
Theorem addProductToCart_appends (config : Config.t) (user : User.t)
    (productId : ObjectId) (quantity : Z) (st : Store) :
  in_catalog productId st →
  productId ∉ product_ids (line_items (User.email user) st) →
  ∃ product cart,
    product ∈ products st ∧ Product._id product = productId
    ∧ addProductToCart config user productId quantity st
      = (Ok cart, with_cart (User.email user) cart st)
    ∧ Cart.cartItems cart
      = (line_items (User.email user) st ++ [CartItem.mk product quantity])%list
    ∧ line_items (User.email user) (with_cart (User.email user) cart st)
      = Cart.cartItems cart
    ∧ Cart.paymentOption cart
      = match carts st !! User.email user with
        | Some old => Cart.paymentOption old
        | None => Config.default_payment_option config
        end.
Proof.
  intros C NI.
  destruct (addProductToCart_new_item config user productId quantity st C NI)
    as (product & cart & I & E & R & L & P).
  exists product, cart. split_and!; try done.
  unfold line_items. by rewrite with_cart_lookup.
Qed.

Lemma product_C_in_catalog (st : Store) :
  products st = [product_A; product_B; product_C] → in_catalog 3%N st.
Proof.
  intros P. exists product_C. rewrite P. split; [|reflexivity].
  apply list_elem_of_In. cbn. auto.
Qed.

Lemma addProductToCart_appends_witness :
  ∃ product cart,
    product ∈ products cartless_store ∧ Product._id product = 3%N
    ∧ addProductToCart sample_config (sample_user 300) 3%N 4 cartless_store
      = (Ok cart, with_cart "crio-user@gmail.com" cart cartless_store)
    ∧ Cart.cartItems cart
      = (line_items "crio-user@gmail.com" cartless_store
         ++ [CartItem.mk product 4])%list
    ∧ line_items "crio-user@gmail.com"
        (with_cart "crio-user@gmail.com" cart cartless_store)
      = Cart.cartItems cart
    ∧ Cart.paymentOption cart
      = match carts cartless_store !! "crio-user@gmail.com" with
        | Some old => Cart.paymentOption old
        | None => Config.default_payment_option sample_config
        end.
Proof.
  apply (addProductToCart_appends sample_config (sample_user 300) 3%N 4
           cartless_store).
  - by apply product_C_in_catalog.
  - compute_done.
Defined.

(** ** What a mutation returns is what the store holds *)

Lemma updateProductInCart_ok (user : User.t) (productId : ObjectId)
    (quantity : Z) (st st' : Store) (cart' : Cart.t) :
  updateProductInCart user productId quantity st = (Ok cart', st') →
  ∃ cart i item,
    carts st !! User.email user = Some cart
    ∧ in_catalog productId st
    ∧ find_item productId (Cart.cartItems cart) = Some (i, item)
    ∧ cart' = requantified cart i item quantity
    ∧ st' = with_cart (User.email user) cart' st.
Proof.
  rewrite updateProductInCart_cases.
  destruct (carts st !! User.email user) as [cart|]; [|done].
  destruct (find _ _) as [product|] eqn:F; [|done].
  destruct (find_item _ _) as [[i item]|] eqn:E; [|done].
  intros [= <- <-]. exists cart, i, item. split_and!; try done.
  apply catalog_find_Some in F as [I P]. by exists product.
Qed.

Lemma deleteProductFromCart_ok (user : User.t) (productId : ObjectId)
    (st st' : Store) (cart' : Cart.t) :
  deleteProductFromCart user productId st = (Ok cart', st') →
  ∃ cart i item,
    carts st !! User.email user = Some cart
    ∧ find_item productId (Cart.cartItems cart) = Some (i, item)
    ∧ cart' = spliced cart i
    ∧ st' = with_cart (User.email user) cart' st.
Proof.
  rewrite deleteProductFromCart_cases.
  destruct (carts st !! User.email user) as [cart|]; [|done].
  destruct (find_item _ _) as [[i item]|] eqn:E; [|done].
  intros [= <- <-]. by exists cart, i, item.
Qed.

Lemma checkout_ok (config : Config.t) (user : User.t) (st st' : Store)
    (cart' : Cart.t) :
  checkout config user st = (Ok cart', st') →
  ∃ cart,
    carts st !! User.email user = Some cart
    ∧ Cart.cartItems cart ≠ []
    ∧ User.address user ≠ Config.default_address config
    ∧ totalCost (Cart.cartItems cart) ≤ User.walletMoney user
    ∧ cart' = cleared cart
    ∧ st' = checked_out user cart st.
Proof.
  intros R. pose proof (checkout_cases config user st) as C.
  destruct (carts st !! User.email user) as [cart|]; [|congruence].
  exists cart.
  destruct C as [(_ & C)|[(_ & _ & C)|[(_ & _ & _ & C)|(NE & A & W & C)]]];
    rewrite C in R; try discriminate.
  inversion R. by split_and!.
Qed.

(** X2: the cart that a successful [addProductToCart],
    [updateProductInCart], [deleteProductFromCart] or [checkout] returns is
    the cart the store holds afterwards: [getCartByUser] on the resulting
    store returns that very cart and writes nothing. *)
Theorem getCartByUser_after_mutation (config : Config.t) (user : User.t)
    (productId : ObjectId) (quantity : Z) (st : Store) :
  (∀ cart st', addProductToCart config user productId quantity st = (Ok cart, st') →
     getCartByUser user st' = (Ok cart, st'))
  ∧ (∀ cart st', updateProductInCart user productId quantity st = (Ok cart, st') →
       getCartByUser user st' = (Ok cart, st'))
  ∧ (∀ cart st', deleteProductFromCart user productId st = (Ok cart, st') →
       getCartByUser user st' = (Ok cart, st'))
  ∧ (∀ cart st', checkout config user st = (Ok cart, st') →
       getCartByUser user st' = (Ok cart, st')).
Proof.
  split_and!; intros cart st' R; apply getCartByUser_stored.
  - by apply addProductToCart_added in R as [H _].
  - apply updateProductInCart_ok in R as (? & ? & ? & _ & _ & _ & _ & ->).
    apply with_cart_lookup.
  - apply deleteProductFromCart_ok in R as (? & ? & ? & _ & _ & _ & ->).
    apply with_cart_lookup.
  - apply checkout_ok in R as (old & _ & _ & _ & _ & -> & ->).
    unfold checked_out. cbn. apply lookup_insert_eq.
Qed.

Lemma getCartByUser_after_mutation_witness :
  getCartByUser (sample_user 300)
    (with_cart "crio-user@gmail.com"
       (Cart.mk [CartItem.mk product_A 2; CartItem.mk product_B 4]
                "PAYMENT_OPTION_DEFAULT")
       (sample_store 300))
  = (Ok (Cart.mk [CartItem.mk product_A 2; CartItem.mk product_B 4]
                 "PAYMENT_OPTION_DEFAULT"),
     with_cart "crio-user@gmail.com"
       (Cart.mk [CartItem.mk product_A 2; CartItem.mk product_B 4]
                "PAYMENT_OPTION_DEFAULT")
       (sample_store 300)).
Proof.
  refine (proj1 (proj2 (getCartByUser_after_mutation sample_config
                          (sample_user 300) 2%N 4 (sample_store 300))) _ _ _).
  reflexivity.
Defined.

(** ** A user without a cart *)

(** X3: for a user who has no cart, [getCartByUser] and [checkout] throw the
    404 "User does not have a cart" error, [updateProductInCart] and
    [deleteProductFromCart] throw 400 errors of their own, and none of the
    four writes anything; [addProductToCart] alone creates the cart, with
    the default payment option, and leaves it empty when the product is not
    in the catalogue. *)
Theorem user_without_cart (config : Config.t) (user : User.t)
    (productId : ObjectId) (quantity : Z) (st : Store) :
  carts st !! User.email user = None →
  getCartByUser user st
  = (Throw (ApiError 404 "User does not have a cart"), st)
  ∧ checkout config user st
    = (Throw (ApiError 404 "User does not have a cart"), st)
  ∧ updateProductInCart user productId quantity st
    = (Throw (ApiError 400
                "User does not have a cart. Use POST to create cart and add a product"),
       st)
  ∧ deleteProductFromCart user productId st
    = (Throw (ApiError 400 "User does not have a cart"), st)
  ∧ ∃ cart,
      carts (final (addProductToCart config user productId quantity st))
        !! User.email user = Some cart
      ∧ Cart.paymentOption cart = Config.default_payment_option config
      ∧ (¬ in_catalog productId st → Cart.cartItems cart = [])
      ∧ (in_catalog productId st → length (Cart.cartItems cart) = 1%nat).
Proof.
  intros H. split_and!.
  - by apply getCartByUser_missing.
  - by apply checkout_no_cart.
  - by rewrite updateProductInCart_cases, H.
  - by rewrite deleteProductFromCart_cases, H.
  - rewrite (addProductToCart_absent _ _ _ _ _ H).
    destruct (find _ _) as [product|] eqn:F.
    + exists (pushed (new_cart config) product quantity). cbn.
      rewrite lookup_insert_eq. split_and!; try done.
      intros NC. apply catalog_find_None in NC. congruence.
    + exists (new_cart config). cbn. rewrite lookup_insert_eq.
      split_and!; try done.
      intros C. apply catalog_find_None in F. done.
Qed.

Lemma user_without_cart_witness :
  getCartByUser (sample_user 300) cartless_store
  = (Throw (ApiError 404 "User does not have a cart"), cartless_store)
  ∧ checkout sample_config (sample_user 300) cartless_store
    = (Throw (ApiError 404 "User does not have a cart"), cartless_store)
  ∧ updateProductInCart (sample_user 300) 9%N 2 cartless_store
    = (Throw (ApiError 400
                "User does not have a cart. Use POST to create cart and add a product"),
       cartless_store)
  ∧ deleteProductFromCart (sample_user 300) 9%N cartless_store
    = (Throw (ApiError 400 "User does not have a cart"), cartless_store)
  ∧ ∃ cart,
      carts (final (addProductToCart sample_config (sample_user 300) 9%N 2
                      cartless_store))
        !! "crio-user@gmail.com" = Some cart
      ∧ Cart.paymentOption cart = "PAYMENT_OPTION_DEFAULT"
      ∧ (¬ in_catalog 9%N cartless_store → Cart.cartItems cart = [])
      ∧ (in_catalog 9%N cartless_store → length (Cart.cartItems cart) = 1%nat).
Proof.
  apply (user_without_cart sample_config (sample_user 300) 9%N 2 cartless_store).
  reflexivity.
Defined.

(** ** Removing a line item *)

Lemma product_ids_lookup (cartItems : list CartItem.t) (i : nat)
    (item : CartItem.t) :
  cartItems !! i = Some item →
  product_ids cartItems !! i = Some (Product._id (CartItem.product item)).
Proof. intros L. unfold product_ids. by rewrite list_lookup_fmap, L. Qed.

Lemma product_ids_spliced (cart : Cart.t) (i : nat) :
  product_ids (Cart.cartItems (spliced cart i))
  = delete i (product_ids (Cart.cartItems cart)).
Proof. unfold spliced, product_ids. cbn. apply list_fmap_delete. Qed.

Lemma not_in_spliced (cart : Cart.t) (i : nat) (item : CartItem.t) :
  Cart.cartItems cart !! i = Some item →
  at_most_once cart →
  Product._id (CartItem.product item)
    ∉ product_ids (Cart.cartItems (spliced cart i)).
Proof.
  intros L ND. apply product_ids_lookup in L. unfold at_most_once in ND.
  rewrite product_ids_spliced, delete_take_drop.
  rewrite <- (take_drop_middle _ _ _ L) in ND.
  apply NoDup_app in ND as (_ & D & [N _]%NoDup_cons).
  intros [I|I]%elem_of_app; [|done].
  apply (D _ I). by left.
Qed.

Lemma deleteProductFromCart_line_item (user : User.t) (productId : ObjectId)
    (st : Store) (cart : Cart.t) :
  carts st !! User.email user = Some cart →
  productId ∈ product_ids (Cart.cartItems cart) →
  ∃ i item,
    find_item productId (Cart.cartItems cart) = Some (i, item)
    ∧ deleteProductFromCart user productId st
      = (Ok (spliced cart i), with_cart (User.email user) (spliced cart i) st).
Proof.
  intros H I. apply find_item_in_cart in I as (i & item & F).
  exists i, item. by rewrite deleteProductFromCart_cases, H, F.
Qed.

Lemma deleteProductFromCart_not_in_cart (user : User.t) (productId : ObjectId)
    (st : Store) (cart : Cart.t) :
  carts st !! User.email user = Some cart →
  productId ∉ product_ids (Cart.cartItems cart) →
  deleteProductFromCart user productId st = (Throw NotInCart, st).
Proof.
  intros H NI. apply find_item_None in NI.
  by rewrite deleteProductFromCart_cases, H, NI.
Qed.

(** X4: for a user who has a cart, [deleteProductFromCart] fails with the
    "Product not in cart" error and an unchanged store when the product is
    not a line item; when it is one, the call removes the first line item of
    that product and no other (the items before and after it stay, in
    order), stores and returns the shorter cart, and does not look the
    product up in the catalogue.  If the cart had the product at most once,
    the product is in the cart no more. *)
Theorem deleteProductFromCart_removes (user : User.t) (productId : ObjectId)
    (st : Store) (cart : Cart.t) :
  carts st !! User.email user = Some cart →
  (productId ∉ product_ids (Cart.cartItems cart) →
   deleteProductFromCart user productId st = (Throw NotInCart, st))
  ∧ (productId ∈ product_ids (Cart.cartItems cart) →
     ∃ i item,
       Cart.cartItems cart !! i = Some item
       ∧ Product._id (CartItem.product item) = productId
       ∧ (∀ j other, Cart.cartItems cart !! j = Some other → (j < i)%nat →
            Product._id (CartItem.product other) ≠ productId)
       ∧ deleteProductFromCart user productId st
         = (Ok (spliced cart i), with_cart (User.email user) (spliced cart i) st)
       ∧ Cart.cartItems (spliced cart i)
         = (take i (Cart.cartItems cart) ++ drop (S i) (Cart.cartItems cart))%list
       ∧ S (length (Cart.cartItems (spliced cart i)))
         = length (Cart.cartItems cart)
       ∧ Cart.paymentOption (spliced cart i) = Cart.paymentOption cart
       ∧ (at_most_once cart →
          productId ∉ product_ids (Cart.cartItems (spliced cart i)))).
Proof.
  intros H. split; [by apply deleteProductFromCart_not_in_cart|].
  intros I.
  destruct (deleteProductFromCart_line_item user productId st cart H I)
    as (i & item & F & R).
  exists i, item. pose proof F as (L & P & First)%find_item_Some.
  split_and!; try done.
  - unfold spliced. cbn. apply delete_take_drop.
  - unfold spliced. cbn. rewrite length_delete by eauto.
    apply lookup_lt_Some in L. lia.
  - intros ND. rewrite <- P. by apply not_in_spliced.
Qed.

Lemma deleteProductFromCart_removes_witness :
  ∃ i item,
    Cart.cartItems stale_cart !! i = Some item
    ∧ Product._id (CartItem.product item) = 4%N
    ∧ (∀ j other, Cart.cartItems stale_cart !! j = Some other → (j < i)%nat →
         Product._id (CartItem.product other) ≠ 4%N)
    ∧ deleteProductFromCart (sample_user 300) 4%N stale_store
      = (Ok (spliced stale_cart i),
         with_cart "crio-user@gmail.com" (spliced stale_cart i) stale_store)
    ∧ Cart.cartItems (spliced stale_cart i)
      = (take i (Cart.cartItems stale_cart)
           ++ drop (S i) (Cart.cartItems stale_cart))%list
    ∧ S (length (Cart.cartItems (spliced stale_cart i)))
      = length (Cart.cartItems stale_cart)
    ∧ Cart.paymentOption (spliced stale_cart i) = Cart.paymentOption stale_cart
    ∧ (at_most_once stale_cart →
       4%N ∉ product_ids (Cart.cartItems (spliced stale_cart i))).
Proof.
  refine (proj2 (deleteProductFromCart_removes (sample_user 300) 4%N stale_store
                   stale_cart _) _).
  - reflexivity.
  - compute_done.
Defined.

(** X5: once a product is removed from a cart that had it at most once,
    removing it again fails with the "Product not in cart" error and writes
    nothing, and the product, if the catalogue has it, can be added anew. *)
Theorem deleteProductFromCart_twice (config : Config.t) (user : User.t)
    (productId : ObjectId) (quantity : Z) (st : Store) (cart : Cart.t) :
  carts st !! User.email user = Some cart →
  at_most_once cart →
  productId ∈ product_ids (Cart.cartItems cart) →
  ∃ cart' st',
    deleteProductFromCart user productId st = (Ok cart', st')
    ∧ deleteProductFromCart user productId st' = (Throw NotInCart, st')
    ∧ (in_catalog productId st →
       ∃ cart'', result (addProductToCart config user productId quantity st')
                 = Ok cart''
                 ∧ length (Cart.cartItems cart'')
                   = length (Cart.cartItems cart)).
Proof.
  intros H ND I.
  destruct (deleteProductFromCart_line_item user productId st cart H I)
    as (i & item & F & R).
  pose proof F as (L & P & _)%find_item_Some.
  assert (productId ∉ product_ids (Cart.cartItems (spliced cart i))) as NI
    by (rewrite <- P; by apply not_in_spliced).
  exists (spliced cart i), (with_cart (User.email user) (spliced cart i) st).
  split; [done|]. split.
  - apply (deleteProductFromCart_not_in_cart _ _ _ (spliced cart i));
      [apply with_cart_lookup|done].
  - intros C.
    destruct (addProductToCart_new_item config user productId quantity
                (with_cart (User.email user) (spliced cart i) st))
      as (product & cart'' & _ & _ & A & Items & _).
    + destruct C as (p & ? & ?). by exists p.
    + unfold line_items. by rewrite with_cart_lookup.
    + exists cart''. rewrite A. split; [done|].
      rewrite Items. unfold line_items. rewrite with_cart_lookup.
      rewrite length_app. unfold spliced. cbn.
      rewrite length_delete by eauto. apply lookup_lt_Some in L. lia.
Qed.

Lemma deleteProductFromCart_twice_witness :
  ∃ cart' st',
    deleteProductFromCart (sample_user 300) 2%N (sample_store 300) = (Ok cart', st')
    ∧ deleteProductFromCart (sample_user 300) 2%N st' = (Throw NotInCart, st')
    ∧ (in_catalog 2%N (sample_store 300) →
       ∃ cart'', result (addProductToCart sample_config (sample_user 300) 2%N 6 st')
                 = Ok cart''
                 ∧ length (Cart.cartItems cart'')
                   = length (Cart.cartItems sample_cart)).
Proof.
  apply (deleteProductFromCart_twice sample_config (sample_user 300) 2%N 6
           (sample_store 300) sample_cart).
  - reflexivity.
  - compute_done.
  - compute_done.
Defined.

(** ** Adding, then removing *)

Lemma find_item_pushed (cartItems : list CartItem.t) (product : Product.t)
    (quantity : Z) :
  Product._id product ∉ product_ids cartItems →
  find_item (Product._id product) (cartItems ++ [CartItem.mk product quantity])
  = Some (length cartItems, CartItem.mk product quantity).
Proof.
  intros NI. apply find_item_Some. split_and!.
  - by apply list_lookup_middle.
  - reflexivity.
  - intros j other L Lt E. rewrite lookup_app_l in L by done.
    apply NI. unfold product_ids. apply list_elem_of_fmap.
    exists other. split; [done|]. by eapply list_elem_of_lookup_2.
Qed.

(** X6: adding to an existing cart a product it does not have, then
    removing that product, gives back the cart and the store one started
    from. *)
Theorem add_then_delete_restores (config : Config.t) (user : User.t)
    (productId : ObjectId) (quantity : Z) (st : Store) (cart : Cart.t) :
  carts st !! User.email user = Some cart →
  in_catalog productId st →
  productId ∉ product_ids (Cart.cartItems cart) →
  ∃ cart' st',
    addProductToCart config user productId quantity st = (Ok cart', st')
    ∧ deleteProductFromCart user productId st' = (Ok cart, st).
Proof.
  intros H C NI. apply catalog_find_in in C as [product F].
  pose proof (catalog_find_Some _ _ _ F) as [_ E].
  exists (pushed cart product quantity),
         (with_cart (User.email user) (pushed cart product quantity) st).
  split.
  - rewrite (addProductToCart_existing _ _ _ _ _ _ H), F.
    apply some_is_product_false in NI. by rewrite NI.
  - subst productId. rewrite deleteProductFromCart_cases, with_cart_lookup.
    assert (find_item (Product._id product)
              (Cart.cartItems (pushed cart product quantity))
            = Some (length (Cart.cartItems cart), CartItem.mk product quantity))
      as -> by by apply find_item_pushed.
    assert (spliced (pushed cart product quantity) (length (Cart.cartItems cart))
            = cart) as ->.
    { unfold spliced, pushed. cbn. rewrite delete_middle, app_nil_r.
      by destruct cart. }
    by rewrite with_cart_again, with_cart_same.
Qed.

Lemma add_then_delete_restores_witness :
  ∃ cart' st',
    addProductToCart sample_config (sample_user 300) 3%N 4 (sample_store 300)
    = (Ok cart', st')
    ∧ deleteProductFromCart (sample_user 300) 3%N st'
      = (Ok sample_cart, sample_store 300).
Proof.
  apply (add_then_delete_restores sample_config (sample_user 300) 3%N 4
           (sample_store 300) sample_cart).
  - reflexivity.
  - by apply product_C_in_catalog.
  - compute_done.
Defined.

(** ** Updating twice *)

Lemma find_item_requantified (productId : ObjectId) (cart : Cart.t) (i : nat)
    (item : CartItem.t) (quantity : Z) :
  find_item productId (Cart.cartItems cart) = Some (i, item) →
  find_item productId (Cart.cartItems (requantified cart i item quantity))
  = Some (i, CartItem.mk (CartItem.product item) quantity).
Proof.
  intros (L & P & First)%find_item_Some. apply find_item_Some.
  unfold requantified. cbn. split_and!.
  - apply list_lookup_insert_eq. by eapply lookup_lt_Some.
  - done.
  - intros j other Lj Lt. rewrite list_lookup_insert_ne in Lj by lia. eauto.
Qed.

Lemma requantified_again (cart : Cart.t) (i : nat) (item item' : CartItem.t)
    (q1 q2 : Z) :
  CartItem.product item' = CartItem.product item →
  requantified (requantified cart i item q1) i item' q2
  = requantified cart i item q2.
Proof.
  intros E. unfold requantified. cbn. by rewrite list_insert_insert_eq, E.
Qed.

(** X7: the last quantity wins.  Updating the quantity of a product to [q1]
    and then to [q2] returns the same cart, and leaves the same store, as
    updating it to [q2] at once; the first update, when it fails, fails like
    the second. *)
Theorem updateProductInCart_twice (user : User.t) (productId : ObjectId)
    (q1 q2 : Z) (st : Store) :
  updateProductInCart user productId q2
    (final (updateProductInCart user productId q1 st))
  = updateProductInCart user productId q2 st
  ∧ (∀ e, result (updateProductInCart user productId q1 st) = Throw e →
          updateProductInCart user productId q2 st = (Throw e, st)).
Proof.
  rewrite !(updateProductInCart_cases user productId _ st).
  unfold final, result.
  destruct (carts st !! User.email user) as [cart|] eqn:H; cbn [fst snd].
  2: { rewrite updateProductInCart_cases, H. split; [done|]. by intros e [= <-]. }
  destruct (find _ _) as [product|] eqn:C; cbn [fst snd].
  2: { rewrite updateProductInCart_cases, H, C. split; [done|]. by intros e [= <-]. }
  destruct (find_item _ _) as [[i item]|] eqn:F; cbn [fst snd].
  2: { rewrite updateProductInCart_cases, H, C, F. split; [done|].
       by intros e [= <-]. }
  split; [|done].
  rewrite updateProductInCart_cases, with_cart_lookup.
  change (products (with_cart (User.email user)
                      (requantified cart i item q1) st)) with (products st).
  rewrite C, (find_item_requantified _ _ _ _ _ F).
  by rewrite requantified_again, with_cart_again.
Qed.

Lemma updateProductInCart_twice_witness :
  updateProductInCart (sample_user 300) 2%N 9
    (final (updateProductInCart (sample_user 300) 2%N 4 (sample_store 300)))
  = updateProductInCart (sample_user 300) 2%N 9 (sample_store 300).
Proof.
  exact (proj1 (updateProductInCart_twice (sample_user 300) 2%N 4 9
                  (sample_store 300))).
Defined.

(** The second update of the sample cart succeeds with the last quantity. *)
Example updateProductInCart_twice_sample :
  result (updateProductInCart (sample_user 300) 2%N 9
            (final (updateProductInCart (sample_user 300) 2%N 4 (sample_store 300))))
  = Ok (Cart.mk [CartItem.mk product_A 2; CartItem.mk product_B 9]
                "PAYMENT_OPTION_DEFAULT").
Proof. reflexivity. Qed.

(** ** A line item whose product left the catalogue *)

(** X8: the three mutations treat a line item whose product is no longer in
    the catalogue differently.  [updateProductInCart] looks the product up
    before it looks at the cart, so it fails with the "Product doesn't exist
    in database" error; [addProductToCart] looks at the cart first, so it
    fails with the already-in-cart error; both leave the store as it was.
    [deleteProductFromCart] never reads the catalogue and removes the line
    item. *)
Theorem stale_line_item (config : Config.t) (user : User.t)
    (productId : ObjectId) (quantity : Z) (st : Store) (cart : Cart.t) :
  carts st !! User.email user = Some cart →
  productId ∈ product_ids (Cart.cartItems cart) →
  ¬ in_catalog productId st →
  updateProductInCart user productId quantity st = (Throw ProductNotFound, st)
  ∧ addProductToCart config user productId quantity st = (Throw AlreadyInCart, st)
  ∧ ∃ i item,
      find_item productId (Cart.cartItems cart) = Some (i, item)
      ∧ deleteProductFromCart user productId st
        = (Ok (spliced cart i), with_cart (User.email user) (spliced cart i) st).
Proof.
  intros H I NC. split_and!.
  - apply catalog_find_None in NC. by rewrite updateProductInCart_cases, H, NC.
  - by apply (addProductToCart_duplicate _ _ _ _ _ cart).
  - by apply deleteProductFromCart_line_item.
Qed.

Lemma stale_line_item_witness :
  updateProductInCart (sample_user 300) 4%N 3 stale_store
  = (Throw ProductNotFound, stale_store)
  ∧ addProductToCart sample_config (sample_user 300) 4%N 3 stale_store
    = (Throw AlreadyInCart, stale_store)
  ∧ ∃ i item,
      find_item 4%N (Cart.cartItems stale_cart) = Some (i, item)
      ∧ deleteProductFromCart (sample_user 300) 4%N stale_store
        = (Ok (spliced stale_cart i),
           with_cart "crio-user@gmail.com" (spliced stale_cart i) stale_store).
Proof.
  apply (stale_line_item sample_config (sample_user 300) 4%N 3 stale_store
           stale_cart).
  - reflexivity.
  - compute_done.
  - apply catalog_find_None. reflexivity.
Defined.

(** ** What checkout will charge *)

Lemma total_cost_app (l k : list CartItem.t) :
  total_cost_spec (l ++ k) = total_cost_spec l + total_cost_spec k.
Proof.
  unfold total_cost_spec. induction l as [|item l IH]; cbn; lia.
Qed.

Lemma total_cost_cons (item : CartItem.t) (l : list CartItem.t) :
  total_cost_spec (item :: l)
  = Product.cost (CartItem.product item) * CartItem.quantity item
    + total_cost_spec l.
Proof. reflexivity. Qed.

Lemma total_cost_lookup (l : list CartItem.t) (i : nat) (item : CartItem.t) :
  l !! i = Some item →
  total_cost_spec l
  = total_cost_spec (take i l)
    + Product.cost (CartItem.product item) * CartItem.quantity item
    + total_cost_spec (drop (S i) l).
Proof.
  intros L. rewrite <- (take_drop_middle _ _ _ L) at 1.
  rewrite total_cost_app, total_cost_cons. lia.
Qed.

Lemma total_cost_insert (l : list CartItem.t) (i : nat) (item new : CartItem.t) :
  l !! i = Some item →
  total_cost_spec (<[i := new]> l)
  = total_cost_spec l
    - Product.cost (CartItem.product item) * CartItem.quantity item
    + Product.cost (CartItem.product new) * CartItem.quantity new.
Proof.
  intros L. rewrite (total_cost_lookup _ _ _ L).
  rewrite insert_take_drop by by eapply lookup_lt_Some.
  rewrite total_cost_app, total_cost_cons. lia.
Qed.

Lemma total_cost_delete (l : list CartItem.t) (i : nat) (item : CartItem.t) :
  l !! i = Some item →
  total_cost_spec (delete i l)
  = total_cost_spec l
    - Product.cost (CartItem.product item) * CartItem.quantity item.
Proof.
  intros L. rewrite (total_cost_lookup _ _ _ L), delete_take_drop.
  rewrite total_cost_app. lia.
Qed.


Lemma addProductToCart_ok (config : Config.t) (user : User.t)
    (productId : ObjectId) (quantity : Z) (st st' : Store) (cart' : Cart.t) :
  addProductToCart config user productId quantity st = (Ok cart', st') →
  ∃ product,
    product ∈ products st ∧ Product._id product = productId
    ∧ (productId ∉ product_ids (line_items (User.email user) st))
    ∧ Cart.cartItems cart'
      = (line_items (User.email user) st ++ [CartItem.mk product quantity])%list
    ∧ st' = with_cart (User.email user) cart' st.
Proof.
  unfold line_items. destruct (carts st !! User.email user) as [cart|] eqn:H.
  - rewrite (addProductToCart_existing _ _ _ _ _ _ H).
    destruct (existsb _ _) eqn:E; [done|]. apply some_is_product_false in E.
    destruct (find _ _) as [product|] eqn:F; [|done].
    apply catalog_find_Some in F as [I P]. intros [= <- <-]. by exists product.
  - rewrite (addProductToCart_absent _ _ _ _ _ H).
    destruct (find _ _) as [product|] eqn:F; [|done].
    apply catalog_find_Some in F as [I P]. intros [= <- <-]. exists product.
    split_and!; try done. apply not_elem_of_nil.
Qed.

Lemma totalCost_pushed (cartItems : list CartItem.t) (product : Product.t)
    (quantity : Z) :
  totalCost (cartItems ++ [CartItem.mk product quantity])
  = js_add (totalCost cartItems) (js_mul (Product.cost product) quantity).
Proof. unfold totalCost. by rewrite fold_left_app. Qed.

(** X9: what each successful mutation does to the total that [checkout]
    computes over the cart.  [addProductToCart] makes it the number sum of
    the former total and of the number product of the catalogue cost and the
    quantity.  When the numbers of the cart before and after are safe
    integers the totals are exact: [addProductToCart] raises the total by
    cost times quantity, [updateProductInCart] changes it by the cost kept
    in the line item times the difference between the new and the old
    quantity, and [deleteProductFromCart] lowers it by the cost times the
    quantity of the line item it removes. *)
Theorem totalCost_after_mutation (config : Config.t) (user : User.t)
    (productId : ObjectId) (quantity : Z) (st : Store) :
  (∀ cart' st',
     addProductToCart config user productId quantity st = (Ok cart', st') →
     ∃ product,
       product ∈ products st ∧ Product._id product = productId
       ∧ totalCost (Cart.cartItems cart')
         = js_add (totalCost (line_items (User.email user) st))
             (js_mul (Product.cost product) quantity)
       ∧ (safe_cart (line_items (User.email user) st) →
          safe_cart (Cart.cartItems cart') →
          totalCost (Cart.cartItems cart')
          = totalCost (line_items (User.email user) st)
            + Product.cost product * quantity))
  ∧ (∀ cart' st',
       updateProductInCart user productId quantity st = (Ok cart', st') →
       ∃ i item,
         line_items (User.email user) st !! i = Some item
         ∧ Product._id (CartItem.product item) = productId
         ∧ (safe_cart (line_items (User.email user) st) →
            safe_cart (Cart.cartItems cart') →
            totalCost (Cart.cartItems cart')
            = totalCost (line_items (User.email user) st)
              + Product.cost (CartItem.product item)
                * (quantity - CartItem.quantity item)))
  ∧ (∀ cart' st',
       deleteProductFromCart user productId st = (Ok cart', st') →
       ∃ i item,
         line_items (User.email user) st !! i = Some item
         ∧ Product._id (CartItem.product item) = productId
         ∧ (safe_cart (line_items (User.email user) st) →
            safe_cart (Cart.cartItems cart') →
            totalCost (Cart.cartItems cart')
            = totalCost (line_items (User.email user) st)
              - Product.cost (CartItem.product item) * CartItem.quantity item)).
Proof.
  split_and!; intros cart' st' R.
  - apply addProductToCart_ok in R as (product & I & P & _ & E & _).
    exists product. split_and!; try done.
    + rewrite E. apply totalCost_pushed.
    + intros S S'. rewrite (totalCost_is_sum _ S), (totalCost_is_sum _ S'), E.
      rewrite total_cost_app, total_cost_cons.
      change (total_cost_spec []) with 0. cbn. lia.
  - apply updateProductInCart_ok in R as (cart & i & item & H & _ & F & -> & _).
    apply find_item_Some in F as (L & P & _).
    exists i, item. unfold line_items. rewrite H. split_and!; try done.
    intros S S'. rewrite (totalCost_is_sum _ S), (totalCost_is_sum _ S').
    unfold requantified. cbn [Cart.cartItems].
    rewrite (total_cost_insert _ _ _ _ L). cbn. lia.
  - apply deleteProductFromCart_ok in R as (cart & i & item & H & F & -> & _).
    apply find_item_Some in F as (L & P & _).
    exists i, item. unfold line_items. rewrite H. split_and!; try done.
    intros S S'. rewrite (totalCost_is_sum _ S), (totalCost_is_sum _ S').
    unfold spliced. cbn [Cart.cartItems]. by rewrite (total_cost_delete _ _ _ L).
Qed.

Lemma totalCost_after_mutation_witness :
  ∃ i item,
    line_items "crio-user@gmail.com" (sample_store 300) !! i = Some item
    ∧ Product._id (CartItem.product item) = 2%N
    ∧ totalCost
        [CartItem.mk product_A 2; CartItem.mk product_B 4]
      = totalCost (line_items "crio-user@gmail.com" (sample_store 300))
        + Product.cost (CartItem.product item) * (4 - CartItem.quantity item).
Proof.
  destruct (proj1 (proj2 (totalCost_after_mutation sample_config (sample_user 300)
                            2%N 4 (sample_store 300)))
              (Cart.mk [CartItem.mk product_A 2; CartItem.mk product_B 4]
                       "PAYMENT_OPTION_DEFAULT")
              (with_cart "crio-user@gmail.com"
                 (Cart.mk [CartItem.mk product_A 2; CartItem.mk product_B 4]
                          "PAYMENT_OPTION_DEFAULT")
                 (sample_store 300))
              eq_refl)
    as (i & item & L & P & E).
  exists i, item. split_and!; [done|done|].
  apply E; safe_numbers.
Defined.

(** Beyond the safe integers an addition can leave the total as it was: a
    line item of cost 1 and quantity 1 after the line item of cost and
    quantity 94906267. *)
Example totalCost_beyond_safe_integers :
  totalCost (Cart.cartItems square_cart) = 9007199515875288
  ∧ totalCost (Cart.cartItems square_cart
                 ++ [CartItem.mk (Product.mk 8 "G" 1) 1])
    = 9007199515875288.
Proof. split; by vm_compute. Qed.

(** ** After a checkout *)

(** X10: a successful [checkout] cannot be repeated.  On the store it
    leaves, [checkout] for that e-mail, with whatever user document, fails
    with the "User cart is empty" error before it reads the address or the
    wallet, and writes nothing: the wallet is debited once.  The emptied
    cart stays in the store and takes products again: adding a product of
    the catalogue gives a cart of that single line item. *)
Theorem checkout_twice (config : Config.t) (user : User.t) (st st' : Store)
    (cart' : Cart.t) :
  checkout config user st = (Ok cart', st') →
  (∀ again, User.email again = User.email user →
     checkout config again st' = (Throw EmptyCart, st'))
  ∧ (∀ productId quantity, in_catalog productId st →
       ∃ product,
         product ∈ products st ∧ Product._id product = productId
         ∧ result (addProductToCart config user productId quantity st')
           = Ok (Cart.mk [CartItem.mk product quantity] (Cart.paymentOption cart'))).
Proof.
  intros R. apply checkout_ok in R as (cart & H & _ & _ & _ & -> & ->).
  assert (carts (checked_out user cart st) !! User.email user = Some (cleared cart))
    as S by (unfold checked_out; cbn; apply lookup_insert_eq).
  split.
  - intros again E. apply (checkout_empty_cart _ _ _ (cleared cart)); [|done].
    by rewrite E.
  - intros productId quantity C. apply catalog_find_in in C as [product F].
    pose proof (catalog_find_Some _ _ _ F) as [I P].
    exists product. split_and!; try done.
    rewrite (addProductToCart_existing _ _ _ _ _ _ S). cbn. by rewrite F.
Qed.

Lemma checkout_twice_witness :
  (∀ again, User.email again = User.email (sample_user 300) →
     checkout sample_config again
       (checked_out (sample_user 300) sample_cart (sample_store 300))
     = (Throw EmptyCart,
        checked_out (sample_user 300) sample_cart (sample_store 300)))
  ∧ (∀ productId quantity, in_catalog productId (sample_store 300) →
       ∃ product,
         product ∈ products (sample_store 300) ∧ Product._id product = productId
         ∧ result (addProductToCart sample_config (sample_user 300) productId
                     quantity
                     (checked_out (sample_user 300) sample_cart (sample_store 300)))
           = Ok (Cart.mk [CartItem.mk product quantity]
                         (Cart.paymentOption (cleared sample_cart)))).
Proof.
  apply (checkout_twice sample_config (sample_user 300) (sample_store 300)
           (checked_out (sample_user 300) sample_cart (sample_store 300))
           (cleared sample_cart)).
  reflexivity.
Defined.




(** A cart with a negative quantity: the checkout credits the wallet. *)
Example checkout_negative_quantity :
  User.walletMoney <$>
    users (final (checkout sample_config (sample_user 300)
                    (mkStore {[ 7%N := sample_user 300 ]} [product_A]
                       {[ "crio-user@gmail.com" :=
                            Cart.mk [CartItem.mk product_A (-2)]
                                    "PAYMENT_OPTION_DEFAULT" ]})))
      !! 7%N
  = Some 500.
Proof. reflexivity. Qed.

(** ** What the cart service leaves alone *)

Lemma only_cart_changed_refl (email : string) (st : Store) :
  only_cart_changed email st st.
Proof. by split_and!. Qed.

Lemma only_cart_changed_with_cart (email : string) (cart : Cart.t) (st : Store) :
  only_cart_changed email st (with_cart email cart st).
Proof.
  split_and!; try done. intros other NE. by apply with_cart_other.
Qed.

(** X12: [getCartByUser] writes nothing, and [addProductToCart],
    [updateProductInCart] and [deleteProductFromCart], whether they return
    or throw, change nothing in the store but the cart of the user's
    e-mail: no user document, no product of the catalogue and no cart of
    another e-mail. *)
Theorem cart_mutations_frame (config : Config.t) (user : User.t)
    (productId : ObjectId) (quantity : Z) (st : Store) :
  final (getCartByUser user st) = st
  ∧ only_cart_changed (User.email user) st
      (final (addProductToCart config user productId quantity st))
  ∧ only_cart_changed (User.email user) st
      (final (updateProductInCart user productId quantity st))
  ∧ only_cart_changed (User.email user) st
      (final (deleteProductFromCart user productId st)).
Proof.
  split_and!.
  - apply getCartByUser_final.
  - destruct (carts st !! User.email user) as [cart|] eqn:H.
    + rewrite (addProductToCart_existing _ _ _ _ _ _ H).
      destruct (existsb _ _); [apply only_cart_changed_refl|].
      destruct (find _ _);
        [apply only_cart_changed_with_cart|apply only_cart_changed_refl].
    + rewrite (addProductToCart_absent _ _ _ _ _ H).
      destruct (find _ _); apply only_cart_changed_with_cart.
  - rewrite updateProductInCart_cases.
    destruct (carts st !! User.email user); [|apply only_cart_changed_refl].
    destruct (find _ _); [|apply only_cart_changed_refl].
    destruct (find_item _ _) as [[i item]|];
      [apply only_cart_changed_with_cart|apply only_cart_changed_refl].
  - rewrite deleteProductFromCart_cases.
    destruct (carts st !! User.email user); [|apply only_cart_changed_refl].
    destruct (find_item _ _) as [[i item]|];
      [apply only_cart_changed_with_cart|apply only_cart_changed_refl].
Qed.

(** X13: [checkout], whether it returns or throws, changes nothing in the
    store but the cart of the user's e-mail and the user document of the
    user's identifier: the catalogue, the carts of other e-mails and the
    other users, their wallets included, stay as they were. *)
Theorem checkout_frame (config : Config.t) (user : User.t) (st : Store) :
  only_cart_and_user_changed (User.email user) (User._id user) st
    (final (checkout config user st)).
Proof.
  pose proof (checkout_cases config user st) as C.
  assert (only_cart_and_user_changed (User.email user) (User._id user) st st)
    as Same by by split_and!.
  destruct (carts st !! User.email user) as [cart|]; [|by rewrite C].
  destruct C as [(_ & C)|[(_ & _ & C)|[(_ & _ & _ & C)|(_ & _ & _ & C)]]];
    rewrite C; try done.
  unfold checked_out, final. cbn. split_and!; try done; cbn.
  - intros other NE. by apply lookup_insert_ne.
  - intros other NE. by apply lookup_insert_ne.
Qed.

(** ** Setting the address *)


Lemma getUserById_stored (id : ObjectId) (st : Store) (user : User.t) :
  users st !! id = Some user → getUserById id st = (Ok user, st).
Proof. intros H. unfold getUserById. run. by rewrite H. Qed.

Lemma getUserAddressById_stored (id : ObjectId) (q : bool) (st : Store)
    (user : User.t) :
  users st !! id = Some user →
  getUserAddressById id q st
  = (Ok (if q then AddressOnly (User.address user)
         else IdAddressEmail id (User.address user) (User.email user)), st).
Proof. intros H. unfold getUserAddressById. run. rewrite H. by destruct q. Qed.

(** X14: [setAddress] returns the new address and stores the user document
    it was given with that address, every other field as the document had
    it; afterwards [getUserById] returns that document and
    [getUserAddressById] the new address.  Carts, catalogue and the other
    users are not touched. *)
Theorem setAddress_then_read (user : User.t) (newAddress : string) (q : bool)
    (st : Store) :
  ∃ st',
    setAddress user newAddress st = (Ok newAddress, st')
    ∧ getUserById (User._id user) st' = (Ok (readdressed user newAddress), st')
    ∧ getUserAddressById (User._id user) q st'
      = (Ok (if q then AddressOnly newAddress
             else IdAddressEmail (User._id user) newAddress (User.email user)),
         st')
    ∧ User.walletMoney (readdressed user newAddress) = User.walletMoney user
    ∧ User.email (readdressed user newAddress) = User.email user
    ∧ carts st' = carts st
    ∧ products st' = products st
    ∧ (∀ other, other ≠ User._id user → users st' !! other = users st !! other).
Proof.
  exists (with_user (readdressed user newAddress) st).
  assert (users (with_user (readdressed user newAddress) st) !! User._id user
          = Some (readdressed user newAddress)) as S
    by (unfold with_user; cbn; apply lookup_insert_eq).
  split_and!; try done.
  - by apply getUserById_stored.
  - by rewrite (getUserAddressById_stored _ _ _ _ S).
  - intros other NE. unfold with_user. cbn. by apply lookup_insert_ne.
Qed.

Lemma setAddress_then_read_witness :
  ∃ st',
    setAddress (sample_user 300) "7, Side Street" (sample_store 300)
    = (Ok "7, Side Street", st')
    ∧ getUserById 7%N st'
      = (Ok (readdressed (sample_user 300) "7, Side Street"), st')
    ∧ getUserAddressById 7%N true st' = (Ok (AddressOnly "7, Side Street"), st')
    ∧ User.walletMoney (readdressed (sample_user 300) "7, Side Street") = 300
    ∧ User.email (readdressed (sample_user 300) "7, Side Street")
      = "crio-user@gmail.com"
    ∧ carts st' = carts (sample_store 300)
    ∧ products st' = products (sample_store 300)
    ∧ (∀ other, other ≠ 7%N → users st' !! other = users (sample_store 300) !! other).
Proof.
  apply (setAddress_then_read (sample_user 300) "7, Side Street" true
           (sample_store 300)).
Defined.



(** ** Signing up *)

Lemma createUser_ok (config : Config.t) (body : UserBody.t) (st st' : Store)
    (newUser : User.t) :
  createUser config body st = (Ok newUser, st') →
  ¬ registered (UserBody.email body) st
  ∧ st' = with_user newUser st
  ∧ users st !! User._id newUser = None
  ∧ User.email newUser = UserBody.email body.
Proof.
  intros R.
  destruct (decide (map_Exists (λ _ u, User.email u = UserBody.email body)
                      (users st))) as [T|T]; rewrite map_Exists_lookup in T.
  - by rewrite (createUser_taken config body st T) in R.
  - destruct (createUser_free config body st T) as (u & C & F & _ & E & _).
    rewrite C in R. inversion R; subst. done.
Qed.

(** X16: one account per e-mail.  After a sign-up that succeeded, every
    further [createUser] with the same e-mail, whatever the name and the
    password, fails with the "Email already taken" error and writes
    nothing. *)
Theorem createUser_twice (config : Config.t) (body : UserBody.t) (st st' : Store)
    (newUser : User.t) :
  createUser config body st = (Ok newUser, st') →
  ∀ again, UserBody.email again = UserBody.email body →
           createUser config again st' = (Throw EmailTaken, st').
Proof.
  intros R again E. apply createUser_ok in R as (_ & -> & _ & M).
  apply createUser_taken. exists (User._id newUser), newUser. split.
  - unfold with_user. cbn. apply lookup_insert_eq.
  - by rewrite E.
Qed.

Lemma createUser_twice_witness :
  createUser sample_config
    (UserBody.mk "someone else" "other@gmail.com" "anotherPasswordHashed")
    (with_user (User.mk 8 "other" "other@gmail.com" "otherPasswordHashed"
                        "ADDRESS_NOT_SET" 500)
       (sample_store 300))
  = (Throw EmailTaken,
     with_user (User.mk 8 "other" "other@gmail.com" "otherPasswordHashed"
                        "ADDRESS_NOT_SET" 500)
       (sample_store 300)).
Proof.
  apply (createUser_twice sample_config
           (UserBody.mk "other" "other@gmail.com" "otherPasswordHashed")
           (sample_store 300)
           (with_user (User.mk 8 "other" "other@gmail.com" "otherPasswordHashed"
                               "ADDRESS_NOT_SET" 500)
              (sample_store 300))
           (User.mk 8 "other" "other@gmail.com" "otherPasswordHashed"
                    "ADDRESS_NOT_SET" 500)).
  - by vm_compute.
  - reflexivity.
Defined.

Lemma unique_emails_with_user (newUser : User.t) (st : Store) :
  unique_emails st →
  ¬ registered (User.email newUser) st →
  unique_emails (with_user newUser st).
Proof.
  intros U NR i j u v Li Lj E. unfold with_user in Li, Lj. cbn in Li, Lj.
  rewrite lookup_insert in Li. rewrite lookup_insert in Lj.
  repeat case_decide; simplify_eq; try done.
  - exfalso. apply NR. by exists i, u.
  - exfalso. apply NR. by exists j, v.
  - by apply (U i j u v).
Qed.

(** X17: [createUser] never overwrites: whether it returns or throws, every
    user document of the store is still there under its identifier, carts
    and catalogue are untouched, and if no two users shared an e-mail
    before, none do after. *)
Theorem createUser_preserves (config : Config.t) (body : UserBody.t) (st : Store) :
  (∀ id u, users st !! id = Some u →
           users (final (createUser config body st)) !! id = Some u)
  ∧ carts (final (createUser config body st)) = carts st
  ∧ products (final (createUser config body st)) = products st
  ∧ (unique_emails st → unique_emails (final (createUser config body st))).
Proof.
  destruct (createUser config body st) as [[newUser|e] st'] eqn:R.
  - apply createUser_ok in R as (NR & -> & F & M). unfold final, with_user. cbn.
    split_and!; try done.
    + intros id u L. rewrite lookup_insert_ne; [done|]. congruence.
    + intros U. apply (unique_emails_with_user _ _ U). by rewrite M.
  - assert (st' = st) as ->.
    { destruct (decide (map_Exists (λ _ u, User.email u = UserBody.email body)
                          (users st))) as [T|T]; rewrite map_Exists_lookup in T.
      - rewrite (createUser_taken config body st T) in R. congruence.
      - destruct (createUser_free config body st T) as (u & C & _).
        congruence. }
    by split_and!.
Qed.

(** ** Looking a user up by e-mail *)

Lemma findOne_email_Some (email : string) (st : Store) (user : User.t) :
  (λ r : nat * (N * User.t), r.2.2) <$>
    list_find (λ kv : N * User.t, User.email kv.2 = email) (map_to_list (users st))
  = Some user →
  User.email user = email ∧ ∃ id, users st !! id = Some user.
Proof.
  intros ([i [id u]] & F & ->)%fmap_Some. cbn.
  apply list_find_Some in F as (L & E & _). split; [done|].
  exists id. apply elem_of_map_to_list. by eapply list_elem_of_lookup_2.
Qed.

Lemma findOne_email_None (email : string) (st : Store) :
  (λ r : nat * (N * User.t), r.2.2) <$>
    list_find (λ kv : N * User.t, User.email kv.2 = email) (map_to_list (users st))
  = None
  ↔ ¬ registered email st.
Proof.
  rewrite fmap_None, list_find_None, Forall_forall. unfold registered. split.
  - intros F (id & u & L & E). apply elem_of_map_to_list in L.
    by apply (F _ L).
  - intros NR [id u] L%elem_of_map_to_list E. apply NR. by exists id, u.
Qed.

Lemma getUserByEmail_run (email : string) (st : Store) :
  getUserByEmail email st
  = (Ok ((λ r : nat * (N * User.t), r.2.2) <$>
           list_find (λ kv : N * User.t, User.email kv.2 = email)
                     (map_to_list (users st))), st).
Proof. reflexivity. Qed.

Lemma getUserByEmail_unique (email : string) (st : Store) (id : ObjectId)
    (user : User.t) :
  unique_emails st →
  users st !! id = Some user → User.email user = email →
  getUserByEmail email st = (Ok (Some user), st).
Proof.
  intros U L E. rewrite getUserByEmail_run.
  destruct (_ <$> list_find _ _) as [found|] eqn:F.
  - apply findOne_email_Some in F as (E' & id' & L').
    assert (id = id') as <- by (apply (U id id' user found); congruence).
    congruence.
  - apply findOne_email_None in F. exfalso. apply F. by exists id, user.
Qed.

(** X18: [getUserByEmail] never fails and never writes.  The user it
    returns is a stored user with the e-mail asked for; it returns the empty
    result exactly when no stored user has that e-mail; and when no two
    stored users share an e-mail it returns the one user who has it. *)
Theorem getUserByEmail_finds (email : string) (st : Store) :
  ∃ found,
    getUserByEmail email st = (Ok found, st)
    ∧ (∀ user, found = Some user →
         User.email user = email ∧ ∃ id, users st !! id = Some user)
    ∧ (found = None ↔ ¬ registered email st)
    ∧ (unique_emails st →
       ∀ id user, users st !! id = Some user → User.email user = email →
                  found = Some user).
Proof.
  eexists. split; [apply getUserByEmail_run|]. split_and!.
  - intros user. apply findOne_email_Some.
  - apply findOne_email_None.
  - intros U id user L E.
    pose proof (getUserByEmail_unique email st id user U L E) as G.
    rewrite getUserByEmail_run in G. congruence.
Qed.

Example getUserByEmail_sample :
  result (getUserByEmail "crio-user@gmail.com" (sample_store 300))
  = Ok (Some (sample_user 300))
  ∧ result (getUserByEmail "nobody@gmail.com" (sample_store 300)) = Ok None.
Proof. split; by vm_compute. Qed.

(** X19: a user who has just signed up is found again.  If no two stored
    users shared an e-mail, then after a [createUser] that succeeded
    [getUserByEmail] with the e-mail of the request and [getUserById] with
    the identifier of the new user both return the user [createUser]
    returned. *)
Theorem createUser_then_find (config : Config.t) (body : UserBody.t)
    (st st' : Store) (newUser : User.t) :
  unique_emails st →
  createUser config body st = (Ok newUser, st') →
  getUserByEmail (UserBody.email body) st' = (Ok (Some newUser), st')
  ∧ getUserById (User._id newUser) st' = (Ok newUser, st').
Proof.
  intros U R. apply createUser_ok in R as (NR & -> & F & M).
  assert (users (with_user newUser st) !! User._id newUser = Some newUser) as S
    by (unfold with_user; cbn; apply lookup_insert_eq).
  split.
  - apply (getUserByEmail_unique _ _ (User._id newUser)); try done.
    apply unique_emails_with_user; [done|by rewrite M].
  - by apply getUserById_stored.
Qed.

Lemma sample_store_unique_emails (walletMoney : Z) :
  unique_emails (sample_store walletMoney).
Proof.
  intros i j u v Li Lj _. unfold sample_store in *. cbn in *.
  apply lookup_singleton_Some in Li as [<- _].
  by apply lookup_singleton_Some in Lj as [<- _].
Qed.

Lemma createUser_then_find_witness :
  getUserByEmail "other@gmail.com"
    (with_user (User.mk 8 "other" "other@gmail.com" "otherPasswordHashed"
                        "ADDRESS_NOT_SET" 500)
       (sample_store 300))
  = (Ok (Some (User.mk 8 "other" "other@gmail.com" "otherPasswordHashed"
                       "ADDRESS_NOT_SET" 500)),
     with_user (User.mk 8 "other" "other@gmail.com" "otherPasswordHashed"
                        "ADDRESS_NOT_SET" 500)
       (sample_store 300))
  ∧ getUserById 8%N
      (with_user (User.mk 8 "other" "other@gmail.com" "otherPasswordHashed"
                          "ADDRESS_NOT_SET" 500)
         (sample_store 300))
    = (Ok (User.mk 8 "other" "other@gmail.com" "otherPasswordHashed"
                   "ADDRESS_NOT_SET" 500),
       with_user (User.mk 8 "other" "other@gmail.com" "otherPasswordHashed"
                          "ADDRESS_NOT_SET" 500)
         (sample_store 300)).
Proof.
  apply (createUser_then_find sample_config
           (UserBody.mk "other" "other@gmail.com" "otherPasswordHashed")
           (sample_store 300)).
  - apply sample_store_unique_emails.
  - by vm_compute.
Defined.

(** ** The quantity of a product after an update *)

(** X20: in a cart that has each product at most once, a successful
    [updateProductInCart] leaves the given quantity on every line item of
    the product: the cart then shows no other quantity for it. *)
Theorem updateProductInCart_sets_quantity (user : User.t) (productId : ObjectId)
    (quantity : Z) (st st' : Store) (cart cart' : Cart.t) :
  carts st !! User.email user = Some cart →
  at_most_once cart →
  updateProductInCart user productId quantity st = (Ok cart', st') →
  productId ∈ product_ids (Cart.cartItems cart')
  ∧ ∀ j item, Cart.cartItems cart' !! j = Some item →
              Product._id (CartItem.product item) = productId →
              CartItem.quantity item = quantity.
Proof.
  intros H ND R.
  apply updateProductInCart_ok in R as (old & i & found & H' & _ & F & -> & _).
  assert (old = cart) as -> by congruence.
  pose proof F as (L & P & _)%find_item_Some. split.
  - rewrite (product_ids_requantified _ _ _ _ L).
    apply list_elem_of_lookup. exists i. rewrite <- P. by apply product_ids_lookup.
  - intros j item Lj Pj. unfold requantified in Lj. cbn in Lj.
    destruct (decide (j = i)) as [->|NE].
    + rewrite list_lookup_insert_eq in Lj by by eapply lookup_lt_Some.
      by inversion Lj.
    + rewrite list_lookup_insert_ne in Lj by done. exfalso. apply NE.
      apply (NoDup_lookup _ j i productId ND).
      * rewrite <- Pj. by apply product_ids_lookup.
      * rewrite <- P. by apply product_ids_lookup.
Qed.

Lemma updateProductInCart_sets_quantity_witness :
  2%N ∈ product_ids [CartItem.mk product_A 2; CartItem.mk product_B 4]
  ∧ ∀ j item,
      [CartItem.mk product_A 2; CartItem.mk product_B 4] !! j = Some item →
      Product._id (CartItem.product item) = 2%N →
      CartItem.quantity item = 4.
Proof.
  apply (updateProductInCart_sets_quantity (sample_user 300) 2%N 4
           (sample_store 300)
           (with_cart "crio-user@gmail.com"
              (Cart.mk [CartItem.mk product_A 2; CartItem.mk product_B 4]
                       "PAYMENT_OPTION_DEFAULT")
              (sample_store 300))
           sample_cart
           (Cart.mk [CartItem.mk product_A 2; CartItem.mk product_B 4]
                    "PAYMENT_OPTION_DEFAULT")).
  - reflexivity.
  - compute_done.
  - reflexivity.
Defined.

(** ** Checkout and the catalogue *)

(** X21: [checkout] never reads the catalogue.  It charges the costs that
    the line items carry, so with another catalogue, for instance one with
    other prices, it returns the same result and leaves the same users and
    the same carts. *)
Theorem checkout_ignores_catalog (config : Config.t) (user : User.t) (st : Store)
    (catalog : list Product.t) :
  result (checkout config user (mkStore (users st) catalog (carts st)))
  = result (checkout config user st)
  ∧ users (final (checkout config user (mkStore (users st) catalog (carts st))))
    = users (final (checkout config user st))
  ∧ carts (final (checkout config user (mkStore (users st) catalog (carts st))))
    = carts (final (checkout config user st))
  ∧ products (final (checkout config user (mkStore (users st) catalog (carts st))))
    = catalog.
Proof.
  unfold checkout, checkout_on. run.
  destruct (carts st !! User.email user) as [cart|]; [|done].
  destruct (Nat.eqb _ _); [done|].
  destruct (negb _); [done|]. cbn.
  destruct (String.eqb _ _); [done|].
  destruct (Z.ltb _ _); done.
Qed.
